(** * SCCmecFinder_v4: classification and report synthesis

    A shallow embedding of [staphscope/tools/sccmecfinder/SCCmecFinder_v4.py]:
    the two reference tables, the three rule-based classifiers, the parsing
    loop over the identity-matcher rows, the ranking of the k-mer hits and
    the writing of the result file and of the homology table.

    Python values are modelled as follows.
    - [str] is [string]; [set] of [str] is [gset string]; a [dict] read with
      [.get] only is a [gmap]; the [dict] of k-mer hits, whose insertion
      order is observed by [sorted], is an association list.
    - Iterating over a [set] of strings ([join], [list]) visits the elements
      in an order fixed by the interpreter's string hashing, which changes
      from one process to the next. The order is a parameter [set_iter] of
      the model.
    - [float] is a builtin; it is a parameter of the model, [None] standing
      for [ValueError]. Its values are the rationals, the two infinities
      and nan, compared as floats are.
    - [sorted] is a builtin; on keys with a nan that are not already in a
      run its result depends on the interpreter, and is a parameter
      [sorted_nan] of the model.
    - An uncaught exception ends the run; what had been written to the
      result file before it stays written. *)

From Stdlib Require Import Ascii String QArith.
From stdpp Require Import gmap strings list sorting pretty.

Open Scope string_scope.

(** ** Python strings *)

Module Py.

Definition nl : string := String (Ascii.ascii_of_nat 10) "".
Definition tab : string := String (Ascii.ascii_of_nat 9) "".

(** [bool(s)] for a string: non-empty. *)
Definition truthy (s : string) : bool :=
  match s with
  | EmptyString => false
  | String _ _ => true
  end.

(** [s.startswith(p)] *)
Definition startswith (s p : string) : bool := String.prefix p s.

(** [s.startswith((p1, p2, ...))] *)
Definition startswith_any (s : string) (ps : list string) : bool :=
  existsb (startswith s) ps.

(** [s.split(sep)] for a separator of one character. Python's result is
    never empty (a string without the separator is returned whole), so it
    is given as its first segment and the list of the others:
    [s.split(sep)[0]] is [(split sep s).1] and [s.split(sep)[1]] is
    [(split sep s).2 !! 0], which is [None] where Python raises
    [IndexError]. *)
Fixpoint split (sep : ascii) (s : string) : string * list string :=
  match s with
  | EmptyString => ("", [])
  | String c s' =>
      let '(w, ws) := split sep s' in
      if Ascii.eqb c sep then ("", w :: ws) else (String c w, ws)
  end.

(** [c in s] for a character [c]. *)
Fixpoint contains (c : ascii) (s : string) : bool :=
  match s with
  | EmptyString => false
  | String d s' => Ascii.eqb d c || contains c s'
  end.

(** [sep.join(l)] *)
Definition join (sep : string) (l : list string) : string :=
  String.concat sep l.

(** [str(n)] for a length. *)
Definition str_of_nat (n : nat) : string := pretty n.

End Py.

(** ** Reference tables *)

Definition SCCMEC_DEFINITIONS : gmap string (gset string) :=
  list_to_map
    [ ("SCCmec_type_I(1B)", {["ccrA1"; "ccrB1"; "mecA"; "dmecR1"; "IS1272"]});
      ("SCCmec_type_II(2A)", {["ccrA2"; "ccrB2"; "mecA"; "mecR1"; "mecI"]});
      ("SCCmec_type_III(3A)", {["ccrA3"; "ccrB3"; "mecA"; "mecR1"; "mecI"]});
      ("SCCmec_type_IV(2B)", {["ccrA2"; "ccrB2"; "mecA"; "dmecR1"; "IS1272"]});
      ("SCCmec_type_IV(2B&5)",
        {["ccrA2"; "ccrB2"; "ccrC11"; "mecA"; "dmecR1"; "IS1272"]});
      ("SCCmec_type_V(5C2)", {["ccrC11"; "mec-class-C2"; "mecA"]});
      ("SCCmec_type_V(5C2&5)", {["ccrC11"; "ccrC12"; "mec-class-C2"; "mecA"]});
      ("SCCmec_type_VI(4B)", {["ccrA4"; "ccrB4"; "mecA"; "dmecR1"; "IS1272"]});
      ("SCCmec_type_VII(5C1)", {["ccrC11"; "mec-class-C1"; "mecA"]});
      ("SCCmec_type_VIII(4A)", {["ccrA4"; "ccrB4"; "mecA"; "mecR1"; "mecI"]});
      ("SCCmec_type_IX(1C2)", {["ccrA1"; "ccrB1"; "mec-class-C2"; "mecA"]});
      ("SCCmec_type_X(7C1)", {["ccrA1"; "ccrB6"; "mec-class-C1"; "mecA"]});
      ("SCCmec_type_XI(8E)", {["ccrA1"; "ccrB3"; "mecC"; "mecR1"; "mecI"]});
      ("SCCmec_type_XII(9C2)", {["ccrC21"; "mec-class-C2"; "mecA"]});
      ("SCCmec_type_XIII(9A)", {["ccrC21"; "mecA"; "dmecR1"; "IS1272"]}) ].

Definition SCCMEC_CLASSES_items : list (string * gset string) :=
  [ ("SCCmec_type_I(1B)", {["ccr class 1"; "mec class B"]});
    ("SCCmec_type_II(2A)", {["ccr class 2"; "mec class A"]});
    ("SCCmec_type_III(3A)", {["ccr class 3"; "mec class A"]});
    ("SCCmec_type_IV(2B)", {["ccr class 2"; "mec class B"]});
    ("SCCmec_type_IV(2B&5)", {["ccr class 5"; "ccr class 2"; "mec class B"]});
    ("SCCmec_type_V(5C2)", {["ccr class 5"; "mec class C2"]});
    ("SCCmec_type_V(5C2&5)", {["ccr class 5&5"; "mec class C2"]});
    ("SCCmec_type_VI(4B)", {["ccr class 4"; "mec class B"]});
    ("SCCmec_type_VII(5C1)", {["ccr class 5"; "mec class C1"]});
    ("SCCmec_type_VIII(4A)", {["ccr class 4"; "mec class A"]});
    ("SCCmec_type_IX(1C2)", {["ccr class 1"; "mec class C2"]});
    ("SCCmec_type_X(7C1)", {["ccr class 7"; "mec class C1"]});
    ("SCCmec_type_XI(8E)", {["ccr class 8"; "mec class E"]});
    ("SCCmec_type_XII(9C2)", {["ccr class 9"; "mec class C2"]});
    ("SCCmec_type_XIII(9A)", {["ccr class 9"; "mec class A"]}) ].

Definition SCCMEC_CLASSES : gmap string (gset string) :=
  list_to_map SCCMEC_CLASSES_items.

(** [d.get(k, set())] *)
Definition dict_get (d : gmap string (gset string)) (k : string) : gset string :=
  default ∅ (d !! k).

(** ** The three classifiers *)

(** [if req.issubset(s): classes.append(label)] as the list it appends. *)
Definition rule (req s : gset string) (label : string) : list string :=
  if decide (req ⊆ s) then [label] else [].

Definition perform_ccr_gene_complex_typing
    (ccrAB_genes ccrC_genes : gset string) : list string :=
  rule {["ccrA1"; "ccrB1"]} ccrAB_genes "ccr class 1"
  ++ rule {["ccrA2"; "ccrB2"]} ccrAB_genes "ccr class 2"
  ++ (if decide ({["ccrC11"; "ccrC12"]} ⊆ ccrC_genes) then ["ccr class 5&5"]
      else if decide ("ccrC11" ∈ ccrC_genes) then ["ccr class 5"]
      else [])
  ++ rule {["ccrA3"; "ccrB3"]} ccrAB_genes "ccr class 3"
  ++ rule {["ccrA4"; "ccrB4"]} ccrAB_genes "ccr class 4"
  ++ rule {["ccrA5"; "ccrB3"]} ccrAB_genes "ccr class 6"
  ++ rule {["ccrA1"; "ccrB6"]} ccrAB_genes "ccr class 7"
  ++ rule {["ccrA1"; "ccrB3"]} ccrAB_genes "ccr class 8"
  ++ (if decide ("ccrC21" ∈ ccrC_genes) then ["ccr class 9"] else []).

Definition perform_mec_gene_complex_typing (mec_genes : gset string) : list string :=
  rule {["mecA"; "mecR1"; "mecI"]} mec_genes "mec class A"
  ++ rule {["mecA"; "dmecR1"; "IS1272"]} mec_genes "mec class B"
  ++ rule {["mecA"; "mec-class-C1"]} mec_genes "mec class C1"
  ++ rule {["mecA"; "mec-class-C2"]} mec_genes "mec class C2"
  ++ rule {["mecC"; "mecR1"; "mecI"]} mec_genes "mec class E".

Definition perform_sccmec_typing (classes : gset string) : list string :=
  rule {["ccr class 1"; "mec class B"]} classes "SCCmec_type_I(1B)"
  ++ rule {["ccr class 2"; "mec class A"]} classes "SCCmec_type_II(2A)"
  ++ rule {["ccr class 3"; "mec class A"]} classes "SCCmec_type_III(3A)"
  ++ (if decide ({["ccr class 2"; "ccr class 5"; "mec class B"]} ⊆ classes)
      then ["SCCmec_type_IV(2B&5)"]
      else if decide ({["ccr class 2"; "mec class B"]} ⊆ classes)
      then ["SCCmec_type_IV(2B)"]
      else [])
  ++ rule {["ccr class 5"; "mec class C2"]} classes "SCCmec_type_V(5C2)"
  ++ rule {["ccr class 5&5"; "mec class C2"]} classes "SCCmec_type_V(5C2&5)"
  ++ rule {["ccr class 4"; "mec class B"]} classes "SCCmec_type_VI(4B)"
  ++ rule {["ccr class 5"; "mec class C1"]} classes "SCCmec_type_VII(5C1)"
  ++ rule {["ccr class 4"; "mec class A"]} classes "SCCmec_type_VIII(4A)"
  ++ rule {["ccr class 1"; "mec class C2"]} classes "SCCmec_type_IX(1C2)"
  ++ rule {["ccr class 7"; "mec class C1"]} classes "SCCmec_type_X(7C1)"
  ++ rule {["ccr class 8"; "mec class E"]} classes "SCCmec_type_XI(8E)"
  ++ rule {["ccr class 9"; "mec class C2"]} classes "SCCmec_type_XII(9C2)"
  ++ rule {["ccr class 9"; "mec class A"]} classes "SCCmec_type_XIII(9A)".

(** ** Parsing the identity-matcher table

    A data row is given by its fields, the value of
    [line.strip().split('\t')]. *)

Record Evidence := mkEvidence {
  ccrAB_genes : gset string;
  ccrC_genes : gset string;
  mec_genes : gset string;
  subtyping_genes : gset string;
  mrsa_gene : string
}.

Definition no_evidence : Evidence := mkEvidence ∅ ∅ ∅ ∅ "".

Definition add_ccrAB (g : string) (ev : Evidence) : Evidence :=
  mkEvidence ({[g]} ∪ ccrAB_genes ev) (ccrC_genes ev) (mec_genes ev)
             (subtyping_genes ev) (mrsa_gene ev).

Definition add_ccrC (g : string) (ev : Evidence) : Evidence :=
  mkEvidence (ccrAB_genes ev) ({[g]} ∪ ccrC_genes ev) (mec_genes ev)
             (subtyping_genes ev) (mrsa_gene ev).

Definition add_mec (g : string) (ev : Evidence) : Evidence :=
  mkEvidence (ccrAB_genes ev) (ccrC_genes ev) ({[g]} ∪ mec_genes ev)
             (subtyping_genes ev) (mrsa_gene ev).

Definition add_subtyping (g : string) (ev : Evidence) : Evidence :=
  mkEvidence (ccrAB_genes ev) (ccrC_genes ev) (mec_genes ev)
             ({[g]} ∪ subtyping_genes ev) (mrsa_gene ev).

Definition set_mrsa_gene (m : string) (ev : Evidence) : Evidence :=
  mkEvidence (ccrAB_genes ev) (ccrC_genes ev) (mec_genes ev)
             (subtyping_genes ev) m.

(** [gene = parts[0].split(':')[0]] *)
Definition gene_of (p0 : string) : string := (Py.split ":" p0).1.

(** The body of the loop over the lines, from the test on [len(parts)]. *)
Definition parse_row (ev : Evidence) (parts : list string) : Evidence :=
  match parts with
  | p0 :: _ :: _ :: _ :: _ =>
      let gene := gene_of p0 in
      if Py.startswith gene "ccr" then
        if Py.startswith_any gene ["ccrA"; "ccrB"] then add_ccrAB gene ev
        else if Py.startswith gene "ccrC" then add_ccrC gene ev
        else ev
      else if Py.startswith_any gene ["mec"; "IS"; "dme"] then
        let ev := add_mec gene ev in
        if Py.startswith gene "mecALGA251" then set_mrsa_gene "mecALGA251" ev
        else if Py.startswith gene "mecA" then set_mrsa_gene "mecA" ev
        else if Py.startswith gene "mec-class" then set_mrsa_gene "mecA" ev
        else ev
      else if Py.startswith gene "sub" then
        add_subtyping (Py.split "|" gene).1 ev
      else ev
  | _ => ev
  end.

Definition parse_rows (rows : list (list string)) : Evidence :=
  fold_left parse_row rows no_evidence.

(** ** Ranking the k-mer hits *)

Record HomologyHit := mkHit {
  Score : string;
  Expected : string;
  z : string;
  p_value : string;
  query_coverage : string;
  template_coverage : string;
  depth : string;
  Kmers_in_Template : string;
  Description : string
}.

(** The values of the builtin [float]: the numbers, the two infinities and
    nan. *)
Inductive pyfloat := Finite (q : Q) | PosInf | NegInf | NaN.

Definition is_nan (x : pyfloat) : bool :=
  match x with NaN => true | _ => false end.

(** [x < y] on the rationals. *)
Definition Qltb (x y : Q) : bool := negb (Qle_bool y x).

(** [x < y] on floats: false as soon as one of the two is nan. *)
Definition float_lt (x y : pyfloat) : bool :=
  match x, y with
  | NaN, _ | _, NaN => false
  | _, NegInf => false
  | NegInf, _ => true
  | PosInf, _ => false
  | _, PosInf => true
  | Finite a, Finite b => Qltb a b
  end.

(** [x <= y] on floats. *)
Definition float_le (x y : pyfloat) : bool :=
  match x, y with
  | NaN, _ | _, NaN => false
  | NegInf, _ => true
  | _, PosInf => true
  | _, NegInf => false
  | PosInf, _ => false
  | Finite a, Finite b => Qle_bool a b
  end.

(** [x == y] on floats. *)
Definition float_eq (x y : pyfloat) : bool :=
  match x, y with
  | Finite a, Finite b => Qeq_bool a b
  | PosInf, PosInf | NegInf, NegInf => true
  | _, _ => false
  end.

(** [sorted(l, key=..., reverse=True)]: the keys are computed once for
    every element, in order, and the sort compares keys with [<] only.
    - Keys without nan are totally ordered: the elements come out in
      descending order of their keys, those with equal keys in their
      original order.
    - With a nan among the keys, a list in which no key is less than the
      next one is, once reversed, a single run for the sort, which leaves
      it as it is.
    - Otherwise the outcome depends on the comparisons with nan that the
      merge strategy of the interpreter makes. It is a rearrangement that
      depends on the sequence of keys only; the parameter [sorted_nan]
      gives it as the position at which each element, from the last to the
      first, is put among the elements after it. *)
Fixpoint insert_desc {A : Type} (x : pyfloat * A) (l : list (pyfloat * A))
    : list (pyfloat * A) :=
  match l with
  | [] => [x]
  | y :: l' => if float_lt x.1 y.1 then y :: insert_desc x l' else x :: y :: l'
  end.

Definition sort_desc {A : Type} (l : list (pyfloat * A)) : list (pyfloat * A) :=
  foldr insert_desc [] l.

Definition decorate {A : Type} (key : A -> option pyfloat) (l : list A)
    : option (list (pyfloat * A)) :=
  mapM (fun x => k ← key x; Some (k, x)) l.

(** No key is less than the next one. *)
Fixpoint no_ascent (keys : list pyfloat) : bool :=
  match keys with
  | x :: (y :: _) as keys' => negb (float_lt x y) && no_ascent keys'
  | _ => true
  end.

Fixpoint arrange {A : Type} (positions : list nat) (l : list A) : list A :=
  match l with
  | [] => []
  | x :: l' =>
      let r := arrange (tail positions) l' in
      let i := default 0%nat (head positions) in
      (take i r ++ x :: drop i r)%list
  end.

Definition sorted_reverse {A : Type} (sorted_nan : list pyfloat -> list nat)
    (key : A -> option pyfloat) (l : list A) : option (list A) :=
  d ← decorate key l;
  Some (if forallb (fun k => negb (is_nan k)) d.*1 then (sort_desc d).*2
        else if no_ascent d.*1 then l
        else (arrange (sorted_nan d.*1) d).*2).

(** ** Writing a file

    A computation that writes to an open file and may raise: the text
    written so far, and either the exception that ended it or its value. *)

Inductive exn := IndexError | ValueError.

Definition Out (A : Type) : Type := (string * (exn + A))%type.

Definition out_ret {A : Type} (a : A) : Out A := ("", inr a).

Definition out_bind {A B : Type} (m : Out A) (f : A -> Out B) : Out B :=
  match m with
  | (w, inl e) => (w, inl e)
  | (w, inr a) => let '(w', r) := f a in (w +:+ w', r)
  end.

(** [out.write(s)] *)
Definition write (s : string) : Out unit := (s, inr tt).

Definition raise {A : Type} (e : exn) : Out A := ("", inl e).

(** [pass] *)
Definition skip : Out unit := out_ret tt.

(** [l[i]] *)
Definition index (l : list string) (i : nat) : Out string :=
  match l !! i with
  | Some x => out_ret x
  | None => raise IndexError
  end.

Declare Scope out_scope.
Delimit Scope out_scope with out.
Notation "x <- m ;; k" := (out_bind m (fun x => k))
  (at level 100, m at next level, right associativity) : out_scope.
Notation "m ;; k" := (out_bind m (fun _ => k))
  (at level 100, right associativity) : out_scope.

(** ** The run after the two tables are parsed *)

(** [total_genes = ccrAB_genes | ccrC_genes | mec_genes] *)
Definition total_genes_of (ev : Evidence) : gset string :=
  ccrAB_genes ev ∪ ccrC_genes ev ∪ mec_genes ev.

(** [all_classes = set(ccr_classes + mec_classes)] *)
Definition all_classes_of (ev : Evidence) : gset string :=
  list_to_set
    (perform_ccr_gene_complex_typing (ccrAB_genes ev) (ccrC_genes ev)
     ++ perform_mec_gene_complex_typing (mec_genes ev)).

Definition ambiguous_subtype_set : gset string :=
  {["SCCmec_type_IV(2B)"; "SCCmec_type_V(5C2&5)"; "SCCmec_type_V(5C2)"]}.

(** [perform_subtyping], ['Yes'] or ['No'] *)
Definition perform_subtyping_of (sccmec_types : list string) : string :=
  match sccmec_types with
  | [t] => if decide (t ∈ ambiguous_subtype_set) then "Yes" else "No"
  | _ => "No"
  end.

Definition best_kmer_hit_of (kmer_hits : list (string * HomologyHit)) : string :=
  match kmer_hits with
  | (name, _) :: _ => (Py.split "|" name).1
  | [] => ""
  end.

(** [kmer_subtype]; under the test ["|" in name] the second segment
    exists, so the default is never used. *)
Definition kmer_subtype_of (kmer_hits : list (string * HomologyHit)) : string :=
  match kmer_hits with
  | (name, _) :: _ =>
      if Py.contains "|" name then default "" ((Py.split "|" name).2 !! 0)
      else ""
  | [] => ""
  end.

Definition html_header : string :=
  "Template" +:+ Py.tab +:+ "Score" +:+ Py.tab +:+ "Expected" +:+ Py.tab
  +:+ "z" +:+ Py.tab +:+ "p_value" +:+ Py.tab +:+ "Query Coverage" +:+ Py.tab
  +:+ "Template Coverage" +:+ Py.tab +:+ "Depth" +:+ Py.tab +:+ "Kmers"
  +:+ Py.tab +:+ "Description" +:+ Py.nl.

Definition html_row (h : string * HomologyHit) : string :=
  let '(hit, data) := h in
  (hit +:+ Py.tab +:+ Score data +:+ Py.tab +:+ Expected data +:+ Py.tab
   +:+ z data +:+ Py.tab +:+ p_value data +:+ Py.tab)
  +:+ (query_coverage data +:+ Py.tab +:+ template_coverage data +:+ Py.tab
       +:+ depth data +:+ Py.tab)
  +:+ (Kmers_in_Template data +:+ Py.tab +:+ Description data +:+ Py.nl).

(** The text of [HTML_MyKmerFinder.txt]. *)
Definition write_html (kmer_hits : list (string * HomologyHit)) : string :=
  ("SCCmec elements" +:+ Py.nl)
  +:+ match kmer_hits with
      | [] => "no whole SCCmec cassette was found" +:+ Py.nl
      | _ :: _ => html_header +:+ String.concat "" (html_row <$> take 5 kmer_hits)
      end.

Inductive run :=
  | Aborted (e : exn)
  | Partial (report : string) (e : exn)
  | Finished (report html : string).

Section Run.

(** The order in which a set of strings is iterated. *)
Variable set_iter : gset string -> list string.
(** What [sorted] makes of scores with a nan that are not in a run. *)
Variable sorted_nan : list pyfloat -> list nat.
(** The builtin [float]; [None] for [ValueError]. *)
Variable float : string -> option pyfloat.

Local Open Scope out_scope.

(** [kmer_hits] *)
Definition rank_hits (kmer_results : list (string * HomologyHit))
    : option (list (string * HomologyHit)) :=
  match kmer_results with
  | [] => Some []
  | _ :: _ => sorted_reverse sorted_nan (fun x => float (Score x.2)) kmer_results
  end.

Definition resistance_lines (mrsa_gene : string) : string :=
  if Py.truthy mrsa_gene then
    "The input organism was predicted as a MRSA isolate" +:+ Py.nl
    +:+ "The " +:+ mrsa_gene +:+ " gene was detected" +:+ Py.nl +:+ Py.nl
  else
    "The input organism was predicted as a MSSA isolate" +:+ Py.nl
    +:+ "The mecA/mecC gene was not detected" +:+ Py.nl +:+ Py.nl.

(** The block under [# Handle subtyping if needed]. *)
Definition write_subtyping (perform_subtyping kmer_subtype : string)
    (subtyping_genes : gset string) (db_hit : string) : Out unit :=
  if String.eqb perform_subtyping "Yes" && Py.truthy kmer_subtype then
    if (1 <? size subtyping_genes)%nat then
      write ("Alert! Multiple subtype target genes detected." +:+ Py.nl)
    else if (size subtyping_genes =? 1)%nat then
      subtype_gene <- index (set_iter subtyping_genes) 0 ;;
      suffix <- index (Py.split "-" subtype_gene).2 0 ;;
      let db_subtype := (Py.split "(" db_hit).1 +:+ "_" +:+ suffix in
      (if negb (String.eqb db_subtype kmer_subtype)
       then write ("Alert! Contradicting subtype predictions." +:+ Py.nl)
       else skip) ;;
      write ("Prediction based on genes: " +:+ db_subtype +:+ Py.nl)
    else skip
  else skip.

(** A heading and the joined elements of a set, when it is not empty. *)
Definition write_section (heading : string) (s : gset string) : Out unit :=
  if decide (s ≠ ∅) then
    write (Py.nl +:+ heading +:+ Py.nl) ;;
    write (Py.join Py.nl (set_iter s) +:+ Py.nl)
  else skip.

Definition additional_complexes (all_classes : gset string) (db_hit : string)
    : gset string :=
  all_classes ∖ dict_get SCCMEC_CLASSES db_hit.

Definition additional_genes (total_genes : gset string) (db_hit : string)
    : gset string :=
  total_genes ∖ dict_get SCCMEC_DEFINITIONS db_hit.

Definition missing_genes (total_genes : gset string) (best_hit : string)
    : gset string :=
  dict_get SCCMEC_DEFINITIONS (Py.split "|" best_hit).1 ∖ total_genes.

(** The body of [with open(result_file, 'w') as out]. *)
Definition write_report (mrsa_gene : string) (sccmec_types : list string)
    (perform_subtyping kmer_subtype : string) (subtyping_genes : gset string)
    (best_kmer_hit : string) (kmer_hits : list (string * HomologyHit))
    (all_classes total_genes : gset string) : Out unit :=
  write (resistance_lines mrsa_gene) ;;
  match sccmec_types with
  | db_hit :: _ =>
      if (1 <? length sccmec_types)%nat then
        write ("Alert! Possible " +:+ Py.str_of_nat (length sccmec_types)
               +:+ " SCCmec cassettes were predicted:" +:+ Py.nl) ;;
        write (Py.join Py.nl sccmec_types +:+ Py.nl +:+ Py.nl)
      else
        write_subtyping perform_subtyping kmer_subtype subtyping_genes db_hit ;;
        write ("Prediction based on genes: " +:+ db_hit +:+ Py.nl) ;;
        (if Py.truthy best_kmer_hit then
           match kmer_hits with
           | (_, data) :: _ =>
               write ("Prediction based on homology: " +:+ best_kmer_hit
                      +:+ " (" +:+ template_coverage data +:+ "% coverage)"
                      +:+ Py.nl)
           | [] => raise IndexError
           end
         else skip) ;;
        write_section "Additional complexes found:"
                      (additional_complexes all_classes db_hit) ;;
        write_section "Additional genes found:"
                      (additional_genes total_genes db_hit)
  | [] =>
      write ("No SCCmec element was detected" +:+ Py.nl) ;;
      write_section "Detected gene complexes:" all_classes ;;
      match kmer_hits with
      | (best_hit, data) :: _ =>
          write (Py.nl +:+ "Best homology match: " +:+ best_hit +:+ " ("
                 +:+ template_coverage data +:+ "% coverage)" +:+ Py.nl) ;;
          write_section "Missing genes for this cassette:"
                        (missing_genes total_genes best_hit)
      | [] => skip
      end
  end.

(** [main] from [# Perform gene typing] to the homology table. *)
Definition main_core (ev : Evidence)
    (kmer_results : list (string * HomologyHit)) : run :=
  let total_genes := total_genes_of ev in
  let all_classes := all_classes_of ev in
  let sccmec_types := perform_sccmec_typing all_classes in
  let perform_subtyping := perform_subtyping_of sccmec_types in
  match rank_hits kmer_results with
  | None => Aborted ValueError
  | Some kmer_hits =>
      let best_kmer_hit := best_kmer_hit_of kmer_hits in
      let kmer_subtype := kmer_subtype_of kmer_hits in
      match write_report (mrsa_gene ev) sccmec_types perform_subtyping
              kmer_subtype (subtyping_genes ev) best_kmer_hit kmer_hits
              all_classes total_genes with
      | (text, inl e) => Partial text e
      | (text, inr _) => Finished text (write_html kmer_hits)
      end
  end.

(** [main] from the rows of the identity-matcher table. *)
Definition main (rows : list (list string))
    (kmer_results : list (string * HomologyHit)) : run :=
  main_core (parse_rows rows) kmer_results.

End Run.

(** ** Concrete parameters for the examples *)

Fixpoint digits_value (acc : N) (s : string) : option N :=
  match s with
  | EmptyString => Some acc
  | String c s' =>
      let n := N_of_ascii c in
      if ((48 <=? n) && (n <=? 57))%N then digits_value (acc * 10 + (n - 48))%N s'
      else None
  end.

(** A reader of floats for the examples. It gives what [float] gives on
    [nan], on [inf] and on the plain decimal literals [digits],
    [digits.digits], [digits.] and [.digits], the latter with their decimal
    value. It refuses every other string, some of which [float] reads
    (signs, exponents, blanks). *)
Definition float_decimal (s : string) : option pyfloat :=
  if String.eqb s "nan" then Some NaN
  else if String.eqb s "inf" then Some PosInf
  else
    let '(i, rest) := Py.split "." s in
    match rest with
    | [] =>
        if Py.truthy i then n ← digits_value 0 i; Some (Finite (Z.of_N n # 1))
        else None
    | [f] =>
        if Py.truthy (i +:+ f) then
          n ← digits_value 0 (i +:+ f);
          Some (Finite (Z.of_N n # Z.to_pos (10 ^ Z.of_nat (String.length f))))
        else None
    | _ => None
    end.

(** The rearrangement that leaves every list as it is. *)
Definition in_place (keys : list pyfloat) : list nat := [].

(** ** Notions used to state the properties *)

(** The text of the result file after a run, if the file was opened. *)
Definition report_text (r : run) : option string :=
  match r with
  | Aborted _ => None
  | Partial text _ => Some text
  | Finished text _ => Some text
  end.


(** The text of a section of the report: nothing for an empty set,
    otherwise an empty line, the heading and the elements one per line. *)
Definition section_text (set_iter : gset string → list string)
    (heading : string) (s : gset string) : string :=
  if decide (s ≠ ∅) then
    (Py.nl +:+ heading +:+ Py.nl) +:+ (Py.join Py.nl (set_iter s) +:+ Py.nl)
  else "".

(** The line that reports the best hit in the single-type branch: the
    first segment of its name, when it is not empty, and its coverage. *)
Definition homology_text (kmer_hits : list (string * HomologyHit)) : string :=
  match kmer_hits with
  | (name, data) :: _ =>
      if Py.truthy (Py.split "|" name).1 then
        "Prediction based on homology: " +:+ (Py.split "|" name).1 +:+ " ("
        +:+ template_coverage data +:+ "% coverage)" +:+ Py.nl
      else ""
  | [] => ""
  end.

(** The resistance marker a gene token stands for, if any: [mecALGA251] for
    a token that begins with it, [mecA] for any other token that begins
    with [mecA] or with [mec-class]. *)
Definition marker_of_gene (gene : string) : option string :=
  if Py.startswith gene "mecALGA251" then Some "mecALGA251"
  else if Py.startswith gene "mecA" then Some "mecA"
  else if Py.startswith gene "mec-class" then Some "mecA"
  else None.

(** The marker of a data row: that of its gene token; a row with fewer
    than four fields is not a data row. *)
Definition row_marker (parts : list string) : option string :=
  match parts with
  | p0 :: _ :: _ :: _ :: _ => marker_of_gene (gene_of p0)
  | _ => None
  end.

(** Last write wins: the marker of the last row that has one, or the
    empty string. *)
Definition last_marker (rows : list (list string)) : string :=
  default "" (last (omap row_marker rows)).

(** A k-mer record with the given score and template coverage. *)
Definition sample_hit (score coverage : string) : HomologyHit :=
  mkHit score "1" "2.0" "0.01" "90.0" coverage "1.0" "100" "template".

(** A data row of four fields whose first field is the given hit name. *)
Definition sample_row (name : string) : list string :=
  [name; "100.00"; "500/500"; "contig_1"].

(** The rows of an isolate that carries exactly the genes of
    SCCmec_type_IV(2B). *)
Definition rows_IV_2B : list (list string) :=
  [ sample_row "ccrA2:7:81108:AB096217"; sample_row "ccrB2:9:AB096217";
    sample_row "mecA:12:AB505628"; sample_row "dmecR1:1:AB033763";
    sample_row "IS1272:3:AM292304" ].

(** One k-mer hit, a subtype of SCCmec_type_IV(2B). *)
Definition hits_IVa : list (string * HomologyHit) :=
  [("SCCmec_type_IV(2B)|SCCmec_type_IV_IVa", sample_hit "1200" "85.0")].

(** Descending order of decorated elements, and of hits by their score. *)
Definition desc {A : Type} (a b : pyfloat * A) : Prop := float_le b.1 a.1 = true.

Definition score_desc (float : string → option pyfloat)
    (a b : string * HomologyHit) : Prop :=
  ∃ va vb, float (Score a.2) = Some va ∧ float (Score b.2) = Some vb
           ∧ float_le vb va = true.

(** The decorated elements whose key equals [v]. *)
Definition tie {A : Type} (v : pyfloat) (x : pyfloat * A) : bool := float_eq x.1 v.

(** The hits whose score equals [v]. *)
Definition score_is (float : string → option pyfloat) (v : pyfloat)
    (h : string * HomologyHit) : bool :=
  match float (Score h.2) with
  | Some v' => float_eq v' v
  | None => false
  end.

(** The text that reports the best hit in the branch without a type: its
    full name and coverage, then the section of missing genes. *)
Definition best_match_text (set_iter : gset string → list string)
    (kmer_hits : list (string * HomologyHit)) (total_genes : gset string)
    : string :=
  match kmer_hits with
  | (best_hit, data) :: _ =>
      (Py.nl +:+ "Best homology match: " +:+ best_hit +:+ " ("
       +:+ template_coverage data +:+ "% coverage)" +:+ Py.nl)
      +:+ section_text set_iter "Missing genes for this cassette:"
            (missing_genes total_genes best_hit)
  | [] => ""
  end.

(** An iteration order visits each element of the set once. *)
Definition valid_set_iter (set_iter : gset string → list string) : Prop :=
  ∀ s, set_iter s ≡ₚ elements s.

(** The order opposite to that of [elements]. *)
Definition reversed_elements (s : gset string) : list string :=
  rev (elements s).

(** The order of [elements] on the set [s0], the opposite order on every
    other set. *)
Definition reversed_but (s0 s : gset string) : list string :=
  if decide (s = s0) then elements s else rev (elements s).

(** The sets a run joins into lines of the result file: those of its
    branch that are not empty, and none when the run ends early. *)
Definition joined_sets (set_iter : gset string → list string)
    (sorted_nan : list pyfloat → list nat) (float : string → option pyfloat)
    (ev : Evidence) (kmer_results : list (string * HomologyHit))
    : list (gset string) :=
  match main_core set_iter sorted_nan float ev kmer_results with
  | Finished _ _ =>
      filter (λ s, s ≠ ∅)
        match perform_sccmec_typing (all_classes_of ev) with
        | [] =>
            all_classes_of ev
            :: match rank_hits sorted_nan float kmer_results with
               | Some ((best_hit, _) :: _) =>
                   [missing_genes (total_genes_of ev) best_hit]
               | _ => []
               end
        | [db_hit] =>
            [ additional_complexes (all_classes_of ev) db_hit;
              additional_genes (total_genes_of ev) db_hit ]
        | _ :: _ :: _ => []
        end
  | _ => []
  end.

(** Three hits, the second with the score nan. *)
Definition hits_with_nan : list (string * HomologyHit) :=
  [ ("SCCmec_type_I(1B)", sample_hit "1" "80.0");
    ("SCCmec_type_II(2A)", sample_hit "nan" "75.5");
    ("SCCmec_type_IV(2B)", sample_hit "2" "60.0") ].

(** Four hits, two of them with the same score. *)
Definition hits_with_tie : list (string * HomologyHit) :=
  [ ("SCCmec_type_II(2A)|var1", sample_hit "10.2" "75.5");
    ("SCCmec_type_IV(2B)", sample_hit "12" "60.0");
    ("SCCmec_type_I(1B)", sample_hit "10.2" "80.0");
    ("SCCmec_type_III(3A)", sample_hit "3.5" "51.0") ].

(** The rows of an isolate with the genes of SCCmec_type_IV(2B) and two
    more ccr genes that complete no class. *)
Definition rows_IV_2B_extra : list (list string) :=
  rows_IV_2B ++ [sample_row "ccrA5:1"; sample_row "ccrB6:1"].


(** The result file of [rows_IV_2B_extra] and [hits_IVa], up to the list of
    additional genes. *)
Definition text_IV_2B_extra : string :=
  "The input organism was predicted as a MRSA isolate" +:+ Py.nl
  +:+ "The mecA gene was detected" +:+ Py.nl +:+ Py.nl
  +:+ "Prediction based on genes: SCCmec_type_IV(2B)" +:+ Py.nl
  +:+ "Prediction based on homology: SCCmec_type_IV(2B) (85.0% coverage)"
  +:+ Py.nl +:+ Py.nl +:+ "Additional genes found:" +:+ Py.nl.

(** ** Parsing the k-mer table

    A data row is given by its fields, as for the identity-matcher table;
    the first line of the file is skipped before the loop. *)

(** [d[k] = v] on a [dict] kept in insertion order: the value of a key
    already present is replaced where it stands, a new key goes last. *)
Fixpoint dict_set {V : Type} (k : string) (v : V) (d : list (string * V))
    : list (string * V) :=
  match d with
  | [] => [(k, v)]
  | (k', v') :: d' =>
      if String.eqb k' k then (k, v) :: d' else (k', v') :: dict_set k v d'
  end.

(** The body of the loop over the lines of the k-mer table, from the test
    on [len(parts)]; [None] when [float(parts[6])] raises [ValueError]. *)
Definition parse_kmer_row (float : string → option pyfloat)
    (kmer_results : list (string * HomologyHit)) (parts : list string)
    : option (list (string * HomologyHit)) :=
  match parts with
  | p0 :: p1 :: p2 :: p3 :: p4 :: p5 :: p6 :: p7 :: p8 :: p9 :: _ =>
      template_coverage ← float p6;
      if float_le (Finite 50) template_coverage then
        Some (dict_set p0 (mkHit p1 p2 p3 p4 p5 p6 p7 p8 p9) kmer_results)
      else Some kmer_results
  | _ => Some kmer_results
  end.

Fixpoint parse_kmer_from (float : string → option pyfloat)
    (kmer_results : list (string * HomologyHit)) (rows : list (list string))
    : option (list (string * HomologyHit)) :=
  match rows with
  | [] => Some kmer_results
  | parts :: rows' =>
      kmer_results' ← parse_kmer_row float kmer_results parts;
      parse_kmer_from float kmer_results' rows'
  end.

(** [kmer_results] after the loop, from the empty [dict]. *)
Definition parse_kmer_rows (float : string → option pyfloat)
    (rows : list (list string)) : option (list (string * HomologyHit)) :=
  parse_kmer_from float [] rows.

(** [main] from the data rows of the two tables. *)
Definition main_tables (set_iter : gset string → list string)
    (sorted_nan : list pyfloat → list nat) (float : string → option pyfloat)
    (db_rows kmer_rows : list (list string)) : run :=
  let ev := parse_rows db_rows in
  match parse_kmer_rows float kmer_rows with
  | None => Aborted ValueError
  | Some kmer_results => main_core set_iter sorted_nan float ev kmer_results
  end.

(** ** More notions used to state the properties *)

(** The labels in the order of the rules that emit them. *)
Definition ccr_class_order : list string :=
  [ "ccr class 1"; "ccr class 2"; "ccr class 5&5"; "ccr class 5";
    "ccr class 3"; "ccr class 4"; "ccr class 6"; "ccr class 7";
    "ccr class 8"; "ccr class 9" ].

Definition mec_class_order : list string :=
  [ "mec class A"; "mec class B"; "mec class C1"; "mec class C2";
    "mec class E" ].

Definition sccmec_type_order : list string :=
  [ "SCCmec_type_I(1B)"; "SCCmec_type_II(2A)"; "SCCmec_type_III(3A)";
    "SCCmec_type_IV(2B&5)"; "SCCmec_type_IV(2B)"; "SCCmec_type_V(5C2)";
    "SCCmec_type_V(5C2&5)"; "SCCmec_type_VI(4B)"; "SCCmec_type_VII(5C1)";
    "SCCmec_type_VIII(4A)"; "SCCmec_type_IX(1C2)"; "SCCmec_type_X(7C1)";
    "SCCmec_type_XI(8E)"; "SCCmec_type_XII(9C2)"; "SCCmec_type_XIII(9A)" ].

(** Two states of the parsing loop with the same four gene sets. *)
Definition same_genes (ev ev' : Evidence) : Prop :=
  ccrAB_genes ev = ccrAB_genes ev' ∧ ccrC_genes ev = ccrC_genes ev'
  ∧ mec_genes ev = mec_genes ev' ∧ subtyping_genes ev = subtyping_genes ev'.

(** A row with at least four fields. *)
Definition is_data_row (parts : list string) : bool :=
  (4 <=? length parts)%nat.

(** The evidence parsed from one data row per gene of a set. *)
Definition evidence_of_genes (genes : gset string) : Evidence :=
  parse_rows (sample_row <$> elements genes).

(** Rows of the k-mer table of ten fields with the given name, score and
    template coverage. *)
Definition sample_kmer_row (name score coverage : string) : list string :=
  [name; score; "1"; "2.0"; "0.01"; "90.0"; coverage; "1.0"; "100"; "template"].

(** What the parsing loop keeps in each set: tokens with the prefix tested
    for that set, none with a ':', and no '|' in a subtyping gene. *)
Definition gene_partition (ev : Evidence) : Prop :=
  set_Forall (λ g, Py.startswith_any g ["ccrA"; "ccrB"] = true
                   ∧ Py.contains ":" g = false) (ccrAB_genes ev)
  ∧ set_Forall (λ g, Py.startswith g "ccrC" = true
                     ∧ Py.contains ":" g = false) (ccrC_genes ev)
  ∧ set_Forall (λ g, Py.startswith_any g ["mec"; "IS"; "dme"] = true
                     ∧ Py.contains ":" g = false) (mec_genes ev)
  ∧ set_Forall (λ g, Py.startswith g "sub" = true
                     ∧ Py.contains ":" g = false
                     ∧ Py.contains "|" g = false) (subtyping_genes ev).

(** The loop's invariant on the marker: it is empty and no token of
    [mec_genes] has a marker, or it is the marker of one of them. *)
Definition marker_invariant (ev : Evidence) : Prop :=
  (mrsa_gene ev = "" ∧ set_Forall (λ g, marker_of_gene g = None) (mec_genes ev))
  ∨ (∃ g, g ∈ mec_genes ev ∧ marker_of_gene g = Some (mrsa_gene ev)).

(** The rows of an isolate with the genes of SCCmec_type_XI(8E). *)
Definition rows_XI_8E : list (list string) :=
  [ sample_row "ccrA1:1"; sample_row "ccrB3:1"; sample_row "mecC:1";
    sample_row "mecR1:1"; sample_row "mecI:1" ].

(** The rows of an isolate typed SCCmec_type_XIII(9A). *)
Definition rows_XIII_9A : list (list string) :=
  [ sample_row "ccrC21:1"; sample_row "mecA:1"; sample_row "mecR1:1";
    sample_row "mecI:1" ].

(** [d[k]] on a [dict] kept in insertion order, [None] for a missing key. *)
Fixpoint dict_lookup {V : Type} (k : string) (d : list (string * V)) : option V :=
  match d with
  | [] => None
  | (k', v) :: d' => if String.eqb k' k then Some v else dict_lookup k d'
  end.

(** The names of a list in the order of their first occurrence, those of
    [seen] left out. *)
Fixpoint first_occurrences (seen l : list string) : list string :=
  match l with
  | [] => []
  | x :: l' =>
      if decide (x ∈ seen) then first_occurrences seen l'
      else x :: first_occurrences (seen ++ [x]) l'
  end.

(** A row of the k-mer table that [float] refuses: ten fields or more and
    a template coverage that [float] does not read. *)
Definition kmer_row_refused (float : string → option pyfloat) (parts : list string)
    : Prop :=
  match parts with
  | _ :: _ :: _ :: _ :: _ :: _ :: p6 :: _ :: _ :: _ :: _ => float p6 = None
  | _ => False
  end.

(** The entry a row of the k-mer table stands for: its name and record,
    when it has ten fields or more and a template coverage of 50 or more. *)
Definition kmer_entry (float : string → option pyfloat) (parts : list string)
    : option (string * HomologyHit) :=
  match parts with
  | p0 :: p1 :: p2 :: p3 :: p4 :: p5 :: p6 :: p7 :: p8 :: p9 :: _ =>
      match float p6 with
      | Some q =>
          if float_le (Finite 50) q then Some (p0, mkHit p1 p2 p3 p4 p5 p6 p7 p8 p9)
          else None
      | None => None
      end
  | _ => None
  end.

(** Rows of the k-mer table: a name twice, a coverage under 50 and a short
    row. *)
Definition kmer_rows_with_duplicate : list (list string) :=
  [ sample_kmer_row "SCCmec_type_II(2A)|var1" "900" "80.0";
    sample_kmer_row "SCCmec_type_IV(2B)" "1200" "60.0";
    sample_kmer_row "SCCmec_type_II(2A)|var1" "950" "55.5";
    sample_kmer_row "SCCmec_type_I(1B)" "1500" "10.0";
    ["SCCmec_type_V(5C2)"; "2000"; "99.0"] ].

(** * Properties *)

(** ** The classifiers *)

Lemma elem_of_if (P : Prop) `{!Decision P} (a x : string) :
  x ∈ (if decide P then [a] else []) ↔ x = a ∧ P.
Proof.
  destruct (decide P).
  - rewrite list_elem_of_singleton. tauto.
  - rewrite elem_of_nil. tauto.
Qed.

Lemma elem_of_if_elif (P Q : Prop) `{!Decision P, !Decision Q} (a b x : string) :
  x ∈ (if decide P then [a] else if decide Q then [b] else [])
  ↔ (x = a ∧ P) ∨ (x = b ∧ ¬ P ∧ Q).
Proof.
  destruct (decide P).
  - rewrite list_elem_of_singleton. tauto.
  - rewrite elem_of_if. tauto.
Qed.

Lemma elem_of_rule (req s : gset string) (label x : string) :
  x ∈ rule req s label ↔ x = label ∧ req ⊆ s.
Proof. apply elem_of_if. Qed.

(** Membership in the output of the SCCmec typer, rule by rule. *)
Lemma elem_of_sccmec_typing (classes : gset string) (t : string) :
  t ∈ perform_sccmec_typing classes ↔
    (t = "SCCmec_type_I(1B)" ∧ {["ccr class 1"; "mec class B"]} ⊆ classes)
  ∨ (t = "SCCmec_type_II(2A)" ∧ {["ccr class 2"; "mec class A"]} ⊆ classes)
  ∨ (t = "SCCmec_type_III(3A)" ∧ {["ccr class 3"; "mec class A"]} ⊆ classes)
  ∨ ((t = "SCCmec_type_IV(2B&5)"
      ∧ {["ccr class 2"; "ccr class 5"; "mec class B"]} ⊆ classes)
     ∨ (t = "SCCmec_type_IV(2B)"
        ∧ ¬ {["ccr class 2"; "ccr class 5"; "mec class B"]} ⊆ classes
        ∧ {["ccr class 2"; "mec class B"]} ⊆ classes))
  ∨ (t = "SCCmec_type_V(5C2)" ∧ {["ccr class 5"; "mec class C2"]} ⊆ classes)
  ∨ (t = "SCCmec_type_V(5C2&5)" ∧ {["ccr class 5&5"; "mec class C2"]} ⊆ classes)
  ∨ (t = "SCCmec_type_VI(4B)" ∧ {["ccr class 4"; "mec class B"]} ⊆ classes)
  ∨ (t = "SCCmec_type_VII(5C1)" ∧ {["ccr class 5"; "mec class C1"]} ⊆ classes)
  ∨ (t = "SCCmec_type_VIII(4A)" ∧ {["ccr class 4"; "mec class A"]} ⊆ classes)
  ∨ (t = "SCCmec_type_IX(1C2)" ∧ {["ccr class 1"; "mec class C2"]} ⊆ classes)
  ∨ (t = "SCCmec_type_X(7C1)" ∧ {["ccr class 7"; "mec class C1"]} ⊆ classes)
  ∨ (t = "SCCmec_type_XI(8E)" ∧ {["ccr class 8"; "mec class E"]} ⊆ classes)
  ∨ (t = "SCCmec_type_XII(9C2)" ∧ {["ccr class 9"; "mec class C2"]} ⊆ classes)
  ∨ (t = "SCCmec_type_XIII(9A)" ∧ {["ccr class 9"; "mec class A"]} ⊆ classes).
Proof.
  unfold perform_sccmec_typing.
  rewrite !elem_of_app, !elem_of_rule, elem_of_if_elif. reflexivity.
Qed.

(** Membership in the output of the CCR classifier, rule by rule. *)
Lemma elem_of_ccr_typing (ccrAB ccrC : gset string) (c : string) :
  c ∈ perform_ccr_gene_complex_typing ccrAB ccrC ↔
    (c = "ccr class 1" ∧ {["ccrA1"; "ccrB1"]} ⊆ ccrAB)
  ∨ (c = "ccr class 2" ∧ {["ccrA2"; "ccrB2"]} ⊆ ccrAB)
  ∨ ((c = "ccr class 5&5" ∧ {["ccrC11"; "ccrC12"]} ⊆ ccrC)
     ∨ (c = "ccr class 5" ∧ ¬ {["ccrC11"; "ccrC12"]} ⊆ ccrC ∧ "ccrC11" ∈ ccrC))
  ∨ (c = "ccr class 3" ∧ {["ccrA3"; "ccrB3"]} ⊆ ccrAB)
  ∨ (c = "ccr class 4" ∧ {["ccrA4"; "ccrB4"]} ⊆ ccrAB)
  ∨ (c = "ccr class 6" ∧ {["ccrA5"; "ccrB3"]} ⊆ ccrAB)
  ∨ (c = "ccr class 7" ∧ {["ccrA1"; "ccrB6"]} ⊆ ccrAB)
  ∨ (c = "ccr class 8" ∧ {["ccrA1"; "ccrB3"]} ⊆ ccrAB)
  ∨ (c = "ccr class 9" ∧ "ccrC21" ∈ ccrC).
Proof.
  unfold perform_ccr_gene_complex_typing.
  rewrite !elem_of_app, !elem_of_rule, elem_of_if_elif, elem_of_if. reflexivity.
Qed.

(** Membership in the output of the MEC classifier, rule by rule. *)
Lemma elem_of_mec_typing (mec : gset string) (c : string) :
  c ∈ perform_mec_gene_complex_typing mec ↔
    (c = "mec class A" ∧ {["mecA"; "mecR1"; "mecI"]} ⊆ mec)
  ∨ (c = "mec class B" ∧ {["mecA"; "dmecR1"; "IS1272"]} ⊆ mec)
  ∨ (c = "mec class C1" ∧ {["mecA"; "mec-class-C1"]} ⊆ mec)
  ∨ (c = "mec class C2" ∧ {["mecA"; "mec-class-C2"]} ⊆ mec)
  ∨ (c = "mec class E" ∧ {["mecC"; "mecR1"; "mecI"]} ⊆ mec).
Proof.
  unfold perform_mec_gene_complex_typing.
  rewrite !elem_of_app, !elem_of_rule. reflexivity.
Qed.

Lemma subseteq_2 (a b : string) (s : gset string) :
  {[a; b]} ⊆ s ↔ a ∈ s ∧ b ∈ s.
Proof. rewrite union_subseteq, !singleton_subseteq_l. reflexivity. Qed.

Lemma subseteq_3 (a b c : string) (s : gset string) :
  {[a; b; c]} ⊆ s ↔ a ∈ s ∧ b ∈ s ∧ c ∈ s.
Proof.
  rewrite !union_subseteq, !singleton_subseteq_l. tauto.
Qed.

(** Split a membership fact into its rules, keeping those whose label
    can be the given one. *)
Ltac rule_cases H :=
  repeat (destruct H as [H|H]);
  let Heq := fresh "Heq" in
  destruct H as [Heq H]; try discriminate Heq.

(** Decide a closed fact about concrete sets and tables by evaluation. *)
Ltac by_eval := apply (bool_decide_unpack _); vm_compute; exact I.

(** C3. With 'ccr class 2', 'ccr class 5' and 'mec class B' the typer
    emits SCCmec_type_IV(2B&5) and not SCCmec_type_IV(2B); with
    'ccr class 2' and 'mec class B' but without 'ccr class 5' it emits
    SCCmec_type_IV(2B). *)
Theorem sccmec_typing_IV_precedence (classes : gset string) :
  ("ccr class 2" ∈ classes → "ccr class 5" ∈ classes → "mec class B" ∈ classes →
     "SCCmec_type_IV(2B&5)" ∈ perform_sccmec_typing classes
     ∧ "SCCmec_type_IV(2B)" ∉ perform_sccmec_typing classes)
  ∧ ("ccr class 2" ∈ classes → "mec class B" ∈ classes → "ccr class 5" ∉ classes →
     "SCCmec_type_IV(2B)" ∈ perform_sccmec_typing classes).
Proof.
  split.
  - intros H2 H5 HB.
    assert (H25 : {["ccr class 2"; "ccr class 5"; "mec class B"]} ⊆ classes).
    { apply subseteq_3. auto. }
    split.
    + apply elem_of_sccmec_typing.
      do 3 right; left; left. split; [reflexivity|assumption].
    + intros H. apply elem_of_sccmec_typing in H.
      rule_cases H. destruct H as [H _]. exact (H H25).
  - intros H2 HB H5.
    apply elem_of_sccmec_typing.
    do 3 right. left. right. split; [reflexivity|]. split.
    + intros H. apply subseteq_3 in H. exact (H5 (proj1 (proj2 H))).
    + apply subseteq_2. auto.
Qed.

Lemma sccmec_typing_IV_precedence_witness :
  ("SCCmec_type_IV(2B&5)"
     ∈ perform_sccmec_typing {["ccr class 2"; "ccr class 5"; "mec class B"]}
   ∧ "SCCmec_type_IV(2B)"
     ∉ perform_sccmec_typing {["ccr class 2"; "ccr class 5"; "mec class B"]})
  ∧ "SCCmec_type_IV(2B)"
     ∈ perform_sccmec_typing {["ccr class 2"; "mec class B"]}.
Proof.
  split.
  - apply (proj1 (sccmec_typing_IV_precedence
                    {["ccr class 2"; "ccr class 5"; "mec class B"]})); by_eval.
  - apply (proj2 (sccmec_typing_IV_precedence {["ccr class 2"; "mec class B"]}));
      by_eval.
Defined.

(** C4. With ccrC11 and ccrC12 the CCR classifier emits 'ccr class 5&5'
    and not 'ccr class 5'; with ccrC11 and without ccrC12 it emits
    'ccr class 5' and not 'ccr class 5&5'. *)
Theorem ccr_typing_5_precedence (ccrAB_genes ccrC_genes : gset string) :
  ("ccrC11" ∈ ccrC_genes → "ccrC12" ∈ ccrC_genes →
     "ccr class 5&5" ∈ perform_ccr_gene_complex_typing ccrAB_genes ccrC_genes
     ∧ "ccr class 5" ∉ perform_ccr_gene_complex_typing ccrAB_genes ccrC_genes)
  ∧ ("ccrC11" ∈ ccrC_genes → "ccrC12" ∉ ccrC_genes →
     "ccr class 5" ∈ perform_ccr_gene_complex_typing ccrAB_genes ccrC_genes
     ∧ "ccr class 5&5" ∉ perform_ccr_gene_complex_typing ccrAB_genes ccrC_genes).
Proof.
  split.
  - intros H11 H12.
    assert (H55 : {["ccrC11"; "ccrC12"]} ⊆ ccrC_genes).
    { apply subseteq_2. auto. }
    split.
    + apply elem_of_ccr_typing. do 2 right; left; left.
      split; [reflexivity|assumption].
    + intros H. apply elem_of_ccr_typing in H.
      rule_cases H. destruct H as [H _]. exact (H H55).
  - intros H11 H12.
    assert (H55 : ¬ {["ccrC11"; "ccrC12"]} ⊆ ccrC_genes).
    { intros H. apply subseteq_2 in H. exact (H12 (proj2 H)). }
    split.
    + apply elem_of_ccr_typing. do 2 right; left; right.
      split; [reflexivity|]. split; assumption.
    + intros H. apply elem_of_ccr_typing in H.
      rule_cases H. exact (H55 H).
Qed.

Lemma ccr_typing_5_precedence_witness :
  ("ccr class 5&5"
     ∈ perform_ccr_gene_complex_typing {["ccrA2"; "ccrB2"]} {["ccrC11"; "ccrC12"]}
   ∧ "ccr class 5"
     ∉ perform_ccr_gene_complex_typing {["ccrA2"; "ccrB2"]} {["ccrC11"; "ccrC12"]})
  ∧ ("ccr class 5" ∈ perform_ccr_gene_complex_typing {["ccrA2"; "ccrB2"]} {["ccrC11"]}
     ∧ "ccr class 5&5"
       ∉ perform_ccr_gene_complex_typing {["ccrA2"; "ccrB2"]} {["ccrC11"]}).
Proof.
  split.
  - apply (proj1 (ccr_typing_5_precedence
                    {["ccrA2"; "ccrB2"]} {["ccrC11"; "ccrC12"]})); by_eval.
  - apply (proj2 (ccr_typing_5_precedence {["ccrA2"; "ccrB2"]} {["ccrC11"]}));
      by_eval.
Defined.

(** The rule of the typer that emits a label requires the class set the
    table [SCCMEC_CLASSES] gives for that label. *)
Ltac table_entry := by_eval.

(** [exact H] when the goal is syntactically the statement of [H]. *)
Ltac exact_syn H :=
  lazymatch goal with |- ?G => lazymatch type of H with G => exact H end end.

Lemma SCCMEC_CLASSES_entries (t : string) (req : gset string) :
  SCCMEC_CLASSES !! t = Some req → (t, req) ∈ SCCMEC_CLASSES_items.
Proof. apply elem_of_list_to_map_2. Qed.

(** Select the rule of the typer whose label and required set are given. *)
Ltac pick_rule Hsub :=
  apply elem_of_sccmec_typing;
  repeat (first [ solve [left; split; [reflexivity | exact_syn Hsub]] | right ]);
  try solve [split; [reflexivity | exact_syn Hsub]].

(** A class set that contains the required set of some table entry is
    given at least one type. *)
Lemma sccmec_typing_fires (classes : gset string) (t : string) (req : gset string) :
  (t, req) ∈ SCCMEC_CLASSES_items → req ⊆ classes →
  ∃ t', t' ∈ perform_sccmec_typing classes.
Proof.
  unfold SCCMEC_CLASSES_items. intros Hin Hsub.
  repeat (apply elem_of_cons in Hin as [Hin|Hin];
          [injection Hin as -> ->|]);
    [..|apply elem_of_nil in Hin; destruct Hin].
  4: { destruct (decide ({["ccr class 2"; "ccr class 5"; "mec class B"]} ⊆ classes))
         as [H25|H25].
       - exists "SCCmec_type_IV(2B&5)". apply elem_of_sccmec_typing.
         do 3 right; left; left. split; [reflexivity|assumption].
       - exists "SCCmec_type_IV(2B)". apply elem_of_sccmec_typing.
         do 3 right; left; right. split; [reflexivity|]. split; assumption. }
  4: { exists "SCCmec_type_IV(2B&5)". apply elem_of_sccmec_typing.
       do 3 right; left; left. split; [reflexivity|].
       apply subseteq_3 in Hsub. apply subseteq_3.
       exact (conj (proj1 (proj2 Hsub)) (conj (proj1 Hsub) (proj2 (proj2 Hsub)))). }
  all: eexists; pick_rule Hsub.
Qed.

(** C5. The typer returns the empty list exactly when no entry of the
    table of required class sets is included in the class set, and every
    type it returns has its whole required set in the class set. *)
Theorem sccmec_typing_empty_iff (classes : gset string) :
  (perform_sccmec_typing classes = []
   ↔ ∀ t req, SCCMEC_CLASSES !! t = Some req → ¬ req ⊆ classes)
  ∧ (∀ t, t ∈ perform_sccmec_typing classes →
       ∃ req, SCCMEC_CLASSES !! t = Some req ∧ req ⊆ classes).
Proof.
  assert (Hsound : ∀ t, t ∈ perform_sccmec_typing classes →
            ∃ req, SCCMEC_CLASSES !! t = Some req ∧ req ⊆ classes).
  { intros t H. apply elem_of_sccmec_typing in H.
    repeat (destruct H as [H|H]); destruct H as [-> H].
    5: destruct H as [_ H].
    all: eexists; (split; [|exact H]); table_entry. }
  split; [split|exact Hsound].
  - intros Hnil t req Hlook Hsub.
    destruct (sccmec_typing_fires classes t req) as [t' Ht'];
      [apply SCCMEC_CLASSES_entries, Hlook|exact Hsub|].
    rewrite Hnil in Ht'. apply elem_of_nil in Ht'. exact Ht'.
  - intros Hnone. apply elem_of_nil_inv. intros t Ht.
    destruct (Hsound t Ht) as (req & Hlook & Hsub).
    exact (Hnone t req Hlook Hsub).
Qed.

(** ** Parsing: the resistance marker *)

Lemma prefix_cons (a b : ascii) (p s : string) :
  String.prefix (String a p) (String b s)
  = if ascii_dec a b then String.prefix p s else false.
Proof. reflexivity. Qed.

Lemma prefix_app_l (p q s : string) :
  String.prefix (p +:+ q) s = true → String.prefix p s = true.
Proof.
  revert s. induction p as [|a p IH]; intros s H; [destruct s; reflexivity|].
  destruct s as [|b s]; [discriminate H|].
  change (String.prefix (String a (p +:+ q)) (String b s) = true) in H.
  rewrite prefix_cons in *.
  destruct (ascii_dec a b); [apply IH, H|discriminate H].
Qed.

Lemma prefix_mec_not_ccr (s : string) :
  String.prefix "mec" s = true → String.prefix "ccr" s = false.
Proof.
  destruct s as [|b s]; [discriminate|].
  change "mec" with (String "m" "ec"). change "ccr" with (String "c" "cr").
  rewrite !prefix_cons.
  destruct (ascii_dec "m" b) as [<-|]; [reflexivity|intros H; discriminate H].
Qed.

(** A token with a marker is handled by the [mec] branch of the loop. *)
Lemma marker_of_gene_mec (gene m : string) :
  marker_of_gene gene = Some m →
  Py.startswith gene "ccr" = false
  ∧ Py.startswith_any gene ["mec"; "IS"; "dme"] = true.
Proof.
  unfold marker_of_gene, Py.startswith_any, Py.startswith. intros H.
  assert (Hmec : String.prefix "mec" gene = true).
  { destruct (String.prefix "mecALGA251" gene) eqn:H1;
      [exact (prefix_app_l "mec" "ALGA251" gene H1)|].
    destruct (String.prefix "mecA" gene) eqn:H2;
      [exact (prefix_app_l "mec" "A" gene H2)|].
    destruct (String.prefix "mec-class" gene) eqn:H3;
      [exact (prefix_app_l "mec" "-class" gene H3)|discriminate]. }
  split; [apply prefix_mec_not_ccr, Hmec|]. simpl. rewrite Hmec. reflexivity.
Qed.

Lemma marker_of_gene_none_mec (gene : string) :
  Py.startswith gene "mec" = false → marker_of_gene gene = None.
Proof.
  unfold marker_of_gene, Py.startswith. intros H.
  destruct (String.prefix "mecALGA251" gene) eqn:H1;
    [rewrite (prefix_app_l "mec" "ALGA251" gene H1) in H; discriminate|].
  destruct (String.prefix "mecA" gene) eqn:H2;
    [rewrite (prefix_app_l "mec" "A" gene H2) in H; discriminate|].
  destruct (String.prefix "mec-class" gene) eqn:H3;
    [rewrite (prefix_app_l "mec" "-class" gene H3) in H; discriminate|].
  reflexivity.
Qed.

(** One turn of the loop overwrites the marker exactly when the row has
    one. *)
Lemma parse_row_mrsa_gene (ev : Evidence) (parts : list string) :
  mrsa_gene (parse_row ev parts) = default (mrsa_gene ev) (row_marker parts).
Proof.
  unfold parse_row, row_marker.
  destruct parts as [|p0 [|f1 [|f2 [|f3 more]]]]; try reflexivity.
  destruct (marker_of_gene (gene_of p0)) as [m|] eqn:Hm.
  - destruct (marker_of_gene_mec _ _ Hm) as [-> ->].
    unfold marker_of_gene in Hm.
    destruct (Py.startswith (gene_of p0) "mecALGA251");
      [injection Hm as <-; reflexivity|].
    destruct (Py.startswith (gene_of p0) "mecA");
      [injection Hm as <-; reflexivity|].
    destruct (Py.startswith (gene_of p0) "mec-class");
      [injection Hm as <-; reflexivity|discriminate].
  - destruct (Py.startswith (gene_of p0) "ccr").
    { destruct (Py.startswith_any (gene_of p0) ["ccrA"; "ccrB"]); [reflexivity|].
      destruct (Py.startswith (gene_of p0) "ccrC"); reflexivity. }
    destruct (Py.startswith_any (gene_of p0) ["mec"; "IS"; "dme"]).
    + unfold marker_of_gene in Hm.
      destruct (Py.startswith (gene_of p0) "mecALGA251"); [discriminate|].
      destruct (Py.startswith (gene_of p0) "mecA"); [discriminate|].
      destruct (Py.startswith (gene_of p0) "mec-class"); [discriminate|].
      reflexivity.
    + destruct (Py.startswith (gene_of p0) "sub"); reflexivity.
Qed.

Lemma fold_parse_row_mrsa_gene (rows : list (list string)) (ev : Evidence) :
  mrsa_gene (fold_left parse_row rows ev)
  = default (mrsa_gene ev) (last (omap row_marker rows)).
Proof.
  revert ev. induction rows as [|parts rows IH]; intros ev; [reflexivity|].
  cbn [fold_left]. rewrite IH, parse_row_mrsa_gene. clear IH.
  change (omap row_marker (parts :: rows))
    with (match row_marker parts with
          | Some m => m :: omap row_marker rows
          | None => omap row_marker rows
          end).
  destruct (row_marker parts) as [m|]; [|reflexivity].
  rewrite last_cons. destruct (last (omap row_marker rows)); reflexivity.
Qed.

(** C6. After the rows are parsed the resistance marker is the marker of
    the last data row whose gene token has one, and the empty string when
    no row has one. *)
Theorem mrsa_gene_last_write_wins (rows : list (list string)) :
  mrsa_gene (parse_rows rows) = last_marker rows.
Proof. apply fold_parse_row_mrsa_gene. Qed.

Lemma prefix_mec_class_not_mecA (s : string) :
  String.prefix "mec-class" s = true → String.prefix "mecA" s = false.
Proof.
  intros H. apply (prefix_app_l "mec-" "class") in H. revert H.
  change "mec-" with (String "m" (String "e" (String "c" (String "-" "")))).
  destruct s as [|c1 s]; [discriminate|]. rewrite prefix_cons.
  destruct (ascii_dec "m" c1) as [<-|]; [|intros H; discriminate H].
  destruct s as [|c2 s]; [discriminate|]. rewrite prefix_cons.
  destruct (ascii_dec "e" c2) as [<-|]; [|intros H; discriminate H].
  destruct s as [|c3 s]; [discriminate|]. rewrite prefix_cons.
  destruct (ascii_dec "c" c3) as [<-|]; [|intros H; discriminate H].
  destruct s as [|c4 s]; [discriminate|]. rewrite prefix_cons.
  destruct (ascii_dec "-" c4) as [<-|]; [|intros H; discriminate H].
  reflexivity.
Qed.

Lemma marker_of_mec_class (gene : string) :
  Py.startswith gene "mec-class" = true → marker_of_gene gene = Some "mecA".
Proof.
  unfold marker_of_gene, Py.startswith. intros H.
  pose proof (prefix_mec_class_not_mecA gene H) as HA.
  destruct (String.prefix "mecALGA251" gene) eqn:H1.
  { rewrite (prefix_app_l "mecA" "LGA251" gene H1) in HA. discriminate HA. }
  rewrite HA, H. reflexivity.
Qed.

Lemma marker_of_mecALGA251 (gene : string) :
  Py.startswith gene "mecALGA251" = true →
  marker_of_gene gene = Some "mecALGA251".
Proof. unfold marker_of_gene. intros ->. reflexivity. Qed.

Lemma omap_row_marker_none (rows : list (list string)) :
  Forall (λ parts, row_marker parts = None) rows → omap row_marker rows = [].
Proof.
  induction 1 as [|parts rows Hp _ IH]; [reflexivity|].
  change (omap row_marker (parts :: rows))
    with (match row_marker parts with
          | Some m => m :: omap row_marker rows
          | None => omap row_marker rows
          end).
  rewrite Hp. exact IH.
Qed.

(** The marker after a row that has one, when no later row has one. *)
Lemma last_marker_of_row (before later : list (list string))
    (parts : list string) (m : string) :
  row_marker parts = Some m →
  Forall (λ parts, row_marker parts = None) later →
  mrsa_gene (parse_rows (before ++ parts :: later)) = m.
Proof.
  intros Hm Hlater. unfold parse_rows. rewrite fold_parse_row_mrsa_gene.
  change (mrsa_gene no_evidence) with "".
  rewrite omap_app.
  change (omap row_marker (parts :: later))
    with (match row_marker parts with
          | Some m => m :: omap row_marker later
          | None => omap row_marker later
          end).
  rewrite Hm, (omap_row_marker_none later Hlater), last_snoc. reflexivity.
Qed.

(** ** The result file *)

(** The result file begins with the resistance lines. *)
Lemma write_report_resistance (set_iter : gset string → list string)
    (mrsa : string) (types : list string) (ps ks : string)
    (sub : gset string) (best : string) (hits : list (string * HomologyHit))
    (classes total : gset string) :
  ∃ rest, (write_report set_iter mrsa types ps ks sub best hits classes total).1
          = resistance_lines mrsa +:+ rest.
Proof.
  unfold write_report, out_bind at 1, write at 1.
  match goal with
  | |- context [let '(_, _) := ?X in _] => destruct X as [w' r]
  end.
  exists w'. reflexivity.
Qed.

Lemma main_core_resistance (set_iter : gset string → list string)
    (sorted_nan : list pyfloat → list nat)
    (float : string → option pyfloat) (ev : Evidence)
    (kmer_results : list (string * HomologyHit)) (text : string) :
  report_text (main_core set_iter sorted_nan float ev kmer_results) = Some text →
  ∃ rest, text = resistance_lines (mrsa_gene ev) +:+ rest.
Proof.
  unfold main_core.
  destruct (rank_hits sorted_nan float kmer_results) as [hits|]; [|discriminate].
  match goal with
  | |- context [write_report ?a ?b ?c ?d ?e ?f ?g ?h ?i ?j] =>
      destruct (write_report_resistance a b c d e f g h i j) as [rest Hrest];
      destruct (write_report a b c d e f g h i j) as [w [e'|u]]
  end; simpl in *; intros [= <-]; exists rest; exact Hrest.
Qed.

(** C10. A row whose gene token begins with 'mec-class' sets the marker to
    'mecA' when no later row sets it, and a token that begins with
    'mecALGA251', which also begins with 'mecA', sets it to 'mecALGA251';
    with the marker 'mecA' the result file begins by declaring a MRSA
    isolate and the mecA gene, and this happens on an input where no
    detected gene is mecA. *)
Theorem mec_class_token_sets_mecA :
  (∀ (before later : list (list string)) (p0 f1 f2 f3 : string)
     (more : list string),
     Py.startswith (gene_of p0) "mec-class" = true →
     Forall (λ parts, row_marker parts = None) later →
     mrsa_gene (parse_rows (before ++ (p0 :: f1 :: f2 :: f3 :: more) :: later))
     = "mecA")
  ∧ (∀ (before later : list (list string)) (p0 f1 f2 f3 : string)
       (more : list string),
       Py.startswith (gene_of p0) "mecALGA251" = true →
       Forall (λ parts, row_marker parts = None) later →
       Py.startswith (gene_of p0) "mecA" = true
       ∧ mrsa_gene (parse_rows (before ++ (p0 :: f1 :: f2 :: f3 :: more) :: later))
         = "mecALGA251")
  ∧ (∀ (set_iter : gset string → list string)
       (sorted_nan : list pyfloat → list nat) (float : string → option pyfloat)
       (rows : list (list string)) (kmer_results : list (string * HomologyHit))
       (text : string),
       mrsa_gene (parse_rows rows) = "mecA" →
       report_text (main set_iter sorted_nan float rows kmer_results) = Some text →
       ∃ rest,
         text = "The input organism was predicted as a MRSA isolate" +:+ Py.nl
                +:+ "The mecA gene was detected" +:+ Py.nl +:+ Py.nl +:+ rest)
  ∧ (∀ (set_iter : gset string → list string)
       (sorted_nan : list pyfloat → list nat) (float : string → option pyfloat),
       ("mecA" ∉ mec_genes (parse_rows [sample_row "mec-class-C2:1"]))
       ∧ report_text (main set_iter sorted_nan float [sample_row "mec-class-C2:1"] [])
         = Some ("The input organism was predicted as a MRSA isolate" +:+ Py.nl
                 +:+ "The mecA gene was detected" +:+ Py.nl +:+ Py.nl
                 +:+ "No SCCmec element was detected" +:+ Py.nl)).
Proof.
  split; [|split; [|split]].
  - intros before later p0 f1 f2 f3 more Hp Hlater.
    apply last_marker_of_row; [|exact Hlater].
    apply marker_of_mec_class, Hp.
  - intros before later p0 f1 f2 f3 more Hp Hlater. split.
    + exact (prefix_app_l "mecA" "LGA251" _ Hp).
    + apply last_marker_of_row; [|exact Hlater].
      apply marker_of_mecALGA251, Hp.
  - intros set_iter sorted_nan float rows kmer_results text Hm Htext.
    destruct (main_core_resistance _ _ _ _ _ _ Htext) as [rest ->].
    rewrite Hm. exists rest. reflexivity.
  - intros set_iter sorted_nan float. split; [by_eval|]. vm_compute. reflexivity.
Qed.

Lemma mec_class_token_sets_mecA_witness :
  Py.startswith (gene_of "mec-class-C2:1") "mec-class" = true
  ∧ mrsa_gene (parse_rows ([sample_row "ccrC11:2"]
                           ++ sample_row "mec-class-C2:1"
                           :: [sample_row "ccrA2:7"; ["mecA:3"; "short"]]))
    = "mecA".
Proof.
  split; [reflexivity|].
  apply (proj1 mec_class_token_sets_mecA [sample_row "ccrC11:2"]
           [sample_row "ccrA2:7"; ["mecA:3"; "short"]]
           "mec-class-C2:1" "100.00" "500/500" "contig_1" []).
  - reflexivity.
  - repeat constructor.
Defined.

(** *** Writing in sequence *)

Lemma append_nil_r (s : string) : s +:+ "" = s.
Proof.
  induction s as [|c s IH]; [reflexivity|].
  change (String c (s +:+ "") = String c s). f_equal. exact IH.
Qed.

Lemma append_assoc (a b c : string) : (a +:+ b) +:+ c = a +:+ (b +:+ c).
Proof.
  induction a as [|x a IH]; [reflexivity|].
  change (String x ((a +:+ b) +:+ c) = String x (a +:+ (b +:+ c))).
  f_equal. exact IH.
Qed.

Lemma write_section_eq (set_iter : gset string → list string)
    (heading : string) (s : gset string) :
  write_section set_iter heading s = write (section_text set_iter heading s).
Proof.
  unfold write_section, section_text. destruct (decide (s ≠ ∅)); reflexivity.
Qed.

(** Unfold the sequencing of writes, and nothing else. *)
Ltac run_writes :=
  cbv beta iota zeta delta [out_bind write skip out_ret raise index].

(** The single-type branch: the result file is the resistance lines, what
    the subtyping block writes, the gene-based prediction, the homology
    line and the two sections of additional complexes and genes; the run
    ends early exactly when the subtyping block raises. *)
Lemma main_core_single (set_iter : gset string → list string)
    (sorted_nan : list pyfloat → list nat)
    (float : string → option pyfloat) (ev : Evidence)
    (kmer_results kmer_hits : list (string * HomologyHit)) (db_hit : string) :
  rank_hits sorted_nan float kmer_results = Some kmer_hits →
  perform_sccmec_typing (all_classes_of ev) = [db_hit] →
  main_core set_iter sorted_nan float ev kmer_results
  = match write_subtyping set_iter (perform_subtyping_of [db_hit])
            (kmer_subtype_of kmer_hits) (subtyping_genes ev) db_hit with
    | (w, inl e) => Partial (resistance_lines (mrsa_gene ev) +:+ w) e
    | (w, inr _) =>
        Finished
          (resistance_lines (mrsa_gene ev) +:+ w
           +:+ ("Prediction based on genes: " +:+ db_hit +:+ Py.nl)
           +:+ homology_text kmer_hits
           +:+ section_text set_iter "Additional complexes found:"
                 (additional_complexes (all_classes_of ev) db_hit)
           +:+ section_text set_iter "Additional genes found:"
                 (additional_genes (total_genes_of ev) db_hit))
          (write_html kmer_hits)
    end.
Proof.
  intros Hrank Htypes. unfold main_core. rewrite Hrank, Htypes.
  unfold write_report. rewrite !write_section_eq.
  change (1 <? length [db_hit])%nat with false. cbv iota.
  assert (Hhom :
    (if Py.truthy (best_kmer_hit_of kmer_hits) then
       match kmer_hits with
       | (_, data) :: _ =>
           write ("Prediction based on homology: " +:+ best_kmer_hit_of kmer_hits
                  +:+ " (" +:+ template_coverage data +:+ "% coverage)" +:+ Py.nl)
       | [] => raise IndexError
       end
     else skip) = write (homology_text kmer_hits)).
  { destruct kmer_hits as [|[name data] hits]; [reflexivity|].
    unfold best_kmer_hit_of, homology_text.
    destruct (Py.truthy (Py.split "|" name).1); reflexivity. }
  rewrite Hhom.
  destruct (write_subtyping set_iter (perform_subtyping_of [db_hit])
              (kmer_subtype_of kmer_hits) (subtyping_genes ev) db_hit)
    as [w [e|[]]]; run_writes; reflexivity.
Qed.

(** *** Lines of a text *)





(** *** The subtyping block *)

Lemma perform_subtyping_yes (types : list string) :
  perform_subtyping_of types = "Yes"
  ↔ ∃ t, types = [t] ∧ t ∈ ambiguous_subtype_set.
Proof.
  unfold perform_subtyping_of. split.
  - destruct types as [|t [|t' types]]; try discriminate.
    destruct (decide (t ∈ ambiguous_subtype_set)); [eauto|discriminate].
  - intros (t & -> & Ht). rewrite decide_True by exact Ht. reflexivity.
Qed.


Lemma truthy_nonempty (s : string) : s ≠ "" → Py.truthy s = true.
Proof. destruct s; [contradiction|reflexivity]. Qed.


Lemma split_no_sep (c : ascii) (s : string) :
  Py.contains c s = false → Py.split c s = (s, []).
Proof.
  induction s as [|x s IH]; [reflexivity|]. cbn [Py.contains Py.split].
  intros H. apply orb_false_iff in H as [Hx Hs].
  rewrite (IH Hs), Hx. reflexivity.
Qed.

(** Under the test ["|" in name] the segment read by [kmer_subtype_of]
    exists. *)
Lemma split_contains (c : ascii) (s : string) :
  Py.contains c s = true → is_Some ((Py.split c s).2 !! 0).
Proof.
  induction s as [|x s IH]; [discriminate|]. cbn [Py.contains Py.split].
  destruct (Py.split c s) as [w ws]. destruct (Ascii.eqb x c).
  - intros _. eexists. reflexivity.
  - intros H. exact (IH H).
Qed.

Lemma write_subtyping_no_dash (set_iter : gset string → list string)
    (ks g db_hit : string) :
  ks ≠ "" → set_iter {[g]} = [g] → Py.contains "-" g = false →
  write_subtyping set_iter "Yes" ks {[g]} db_hit = raise IndexError.
Proof.
  intros Hks Hiter Hdash. unfold write_subtyping.
  rewrite (truthy_nonempty ks Hks), size_singleton, Hiter.
  change (index [g] 0) with (out_ret g).
  cbv beta iota zeta delta [out_bind out_ret].
  rewrite (split_no_sep "-" g Hdash). reflexivity.
Qed.

(** C1. The run is ended by [IndexError], after the resistance lines are
    written, when the single type found is one of the three that call for
    subtyping, the best hit has a subtype and the only subtyping gene has
    no '-'. *)
Theorem subtyping_gene_without_dash_raises
    (set_iter : gset string → list string)
    (sorted_nan : list pyfloat → list nat) (float : string → option pyfloat)
    (ev : Evidence) (kmer_results kmer_hits : list (string * HomologyHit))
    (db_hit g : string) :
  rank_hits sorted_nan float kmer_results = Some kmer_hits →
  perform_sccmec_typing (all_classes_of ev) = [db_hit] →
  db_hit ∈ ambiguous_subtype_set →
  kmer_subtype_of kmer_hits ≠ "" →
  subtyping_genes ev = {[g]} →
  set_iter {[g]} = [g] →
  Py.contains "-" g = false →
  main_core set_iter sorted_nan float ev kmer_results
  = Partial (resistance_lines (mrsa_gene ev)) IndexError.
Proof.
  intros Hrank Htypes Hamb Hks Hsub Hiter Hdash.
  rewrite (main_core_single _ _ _ _ _ _ _ Hrank Htypes).
  rewrite (proj2 (perform_subtyping_yes [db_hit])) by eauto.
  rewrite Hsub, (write_subtyping_no_dash _ _ _ _ Hks Hiter Hdash).
  unfold raise. rewrite append_nil_r. reflexivity.
Qed.

Lemma subtyping_gene_without_dash_raises_witness :
  main elements in_place float_decimal (rows_IV_2B ++ [sample_row "subtype_IVa:1"]) hits_IVa
  = Partial ("The input organism was predicted as a MRSA isolate" +:+ Py.nl
             +:+ "The mecA gene was detected" +:+ Py.nl +:+ Py.nl)
            IndexError.
Proof.
  apply (subtyping_gene_without_dash_raises elements in_place float_decimal
           (parse_rows (rows_IV_2B ++ [sample_row "subtype_IVa:1"]))
           hits_IVa hits_IVa "SCCmec_type_IV(2B)" "subtype_IVa").
  - vm_compute. reflexivity.
  - vm_compute. reflexivity.
  - by_eval.
  - by_eval.
  - by_eval.
  - vm_compute. reflexivity.
  - reflexivity.
Defined.

(** With a '-' in the subtyping gene the same run completes. *)
Example subtyping_gene_with_dash_completes :
  main elements in_place float_decimal (rows_IV_2B ++ [sample_row "subtype-IVa:1"]) hits_IVa
  = Finished
      ("The input organism was predicted as a MRSA isolate" +:+ Py.nl
       +:+ "The mecA gene was detected" +:+ Py.nl +:+ Py.nl
       +:+ "Prediction based on genes: SCCmec_type_IV_IVa" +:+ Py.nl
       +:+ "Prediction based on genes: SCCmec_type_IV(2B)" +:+ Py.nl
       +:+ "Prediction based on homology: SCCmec_type_IV(2B) (85.0% coverage)"
       +:+ Py.nl)
      ("SCCmec elements" +:+ Py.nl +:+ html_header
       +:+ html_row ("SCCmec_type_IV(2B)|SCCmec_type_IV_IVa", sample_hit "1200" "85.0")).
Proof. vm_compute. reflexivity. Qed.



(** ** Ranking *)

Section Sorting.

Context {A : Type}.
Implicit Types (x y : pyfloat * A) (l : list (pyfloat * A)).

Lemma Qltb_true (a b : Q) : Qltb a b = true ↔ (a < b)%Q.
Proof.
  unfold Qltb. rewrite negb_true_iff, <- not_true_iff_false, Qle_bool_iff.
  split; [apply Qnot_le_lt|apply Qlt_not_le].
Qed.

Lemma Qltb_false (a b : Q) : Qltb a b = false ↔ (b <= a)%Q.
Proof. unfold Qltb. rewrite negb_false_iff. apply Qle_bool_iff. Qed.

(** The order of the floats that are not nan. *)
Lemma float_lt_le (a b : pyfloat) : float_lt a b = true → float_le a b = true.
Proof.
  destruct a as [p| | |], b as [q| | |]; cbn; try easy.
  rewrite Qltb_true, Qle_bool_iff. apply Qlt_le_weak.
Qed.

Lemma float_not_lt_le (a b : pyfloat) :
  is_nan a = false → is_nan b = false →
  float_lt a b = false → float_le b a = true.
Proof.
  destruct a as [p| | |], b as [q| | |]; cbn; try easy.
  intros _ _. rewrite Qltb_false, Qle_bool_iff. easy.
Qed.

Lemma float_le_trans (a b c : pyfloat) :
  float_le a b = true → float_le b c = true → float_le a c = true.
Proof.
  destruct a as [p| | |], b as [q| | |], c as [r| | |]; cbn; try easy.
  rewrite !Qle_bool_iff. apply Qle_trans.
Qed.

Lemma float_le_not_nan (a b : pyfloat) :
  float_le a b = true → is_nan a = false ∧ is_nan b = false.
Proof. destruct a, b; cbn; easy. Qed.

Lemma float_eq_not_lt (v a b : pyfloat) :
  float_eq a v = true → float_eq b v = true → float_lt a b = false.
Proof.
  destruct a as [p| | |], b as [q| | |], v as [r| | |]; cbn; try easy.
  rewrite !Qeq_bool_iff, Qltb_false. intros -> ->. apply Qle_refl.
Qed.

Lemma insert_desc_perm x l : insert_desc x l ≡ₚ x :: l.
Proof.
  induction l as [|y l IH]; [reflexivity|]. cbn [insert_desc].
  destruct (float_lt x.1 y.1); [|reflexivity].
  rewrite IH. apply Permutation_swap.
Qed.

Lemma sort_desc_perm l : sort_desc l ≡ₚ l.
Proof.
  induction l as [|x l IH]; [reflexivity|].
  cbn [sort_desc foldr]. rewrite insert_desc_perm. constructor. exact IH.
Qed.

Lemma insert_desc_sorted x l :
  is_nan x.1 = false → Forall (λ y, is_nan y.1 = false) l →
  StronglySorted desc l → StronglySorted desc (insert_desc x l).
Proof.
  intros Hx Hl Hsorted. induction Hsorted as [|y l Hsorted IH Hy];
    cbn [insert_desc].
  - repeat constructor.
  - apply Forall_cons in Hl as [Hynan Hl].
    destruct (float_lt x.1 y.1) eqn:Hxy.
    + constructor; [exact (IH Hl)|].
      rewrite insert_desc_perm. constructor; [|exact Hy].
      apply float_lt_le, Hxy.
    + apply (float_not_lt_le _ _ Hx Hynan) in Hxy.
      constructor; [constructor; assumption|].
      constructor; [exact Hxy|].
      eapply Forall_impl; [exact Hy|].
      intros w Hw. unfold desc in *. eapply float_le_trans; eassumption.
Qed.

Lemma sort_desc_sorted l :
  Forall (λ y, is_nan y.1 = false) l → StronglySorted desc (sort_desc l).
Proof.
  induction 1 as [|x l Hx Hl IH]; [constructor|].
  cbn [sort_desc foldr]. apply insert_desc_sorted; [exact Hx| |exact IH].
  fold (sort_desc l). rewrite sort_desc_perm. exact Hl.
Qed.

(** Insertion moves an element only past elements with a strictly
    greater key, so it does not reorder elements with equal keys. *)
Lemma insert_desc_filter (v : pyfloat) x l :
  List.filter (tie v) (insert_desc x l) = List.filter (tie v) (x :: l).
Proof.
  induction l as [|y l IH]; [reflexivity|]. cbn [insert_desc].
  destruct (float_lt x.1 y.1) eqn:Hxy; [|reflexivity].
  cbn [List.filter] in *. rewrite IH.
  destruct (tie v x) eqn:Hx; [|reflexivity].
  destruct (tie v y) eqn:Hy; [|reflexivity].
  exfalso. unfold tie in *.
  rewrite (float_eq_not_lt v _ _ Hx Hy) in Hxy. discriminate Hxy.
Qed.

Lemma sort_desc_filter (v : pyfloat) l :
  List.filter (tie v) (sort_desc l) = List.filter (tie v) l.
Proof.
  induction l as [|x l IH]; [reflexivity|].
  cbn [sort_desc foldr]. rewrite insert_desc_filter.
  cbn [List.filter]. fold (sort_desc l). rewrite IH. reflexivity.
Qed.

(** Whatever the positions, [arrange] rearranges. *)
Lemma arrange_perm {B : Type} (positions : list nat) (l : list B) :
  arrange positions l ≡ₚ l.
Proof.
  revert positions. induction l as [|x l IH]; intros positions; [reflexivity|].
  cbn [arrange].
  rewrite <- Permutation_middle, take_drop. constructor. apply IH.
Qed.

End Sorting.

Lemma decorate_spec {A : Type} (key : A → option pyfloat) (l : list A)
    (d : list (pyfloat * A)) :
  decorate key l = Some d →
  d.*2 = l ∧ Forall (λ p, key p.2 = Some p.1) d.
Proof.
  unfold decorate. intros H. apply mapM_Some in H.
  induction H as [|x p l d Hxp _ [IH1 IH2]]; [split; constructor|].
  destruct (key x) as [k|] eqn:Hk; [|discriminate Hxp].
  injection Hxp as <-. split.
  - cbn [fmap list_fmap]. f_equal. exact IH1.
  - constructor; [exact Hk|exact IH2].
Qed.

Lemma StronglySorted_and_Forall {B : Type} (R : relation B) (P : B → Prop)
    (l : list B) :
  StronglySorted R l → Forall P l →
  StronglySorted (λ a b, R a b ∧ P a ∧ P b) l.
Proof.
  induction 1 as [|x l Hl IH Hx]; intros HP; [constructor|].
  apply Forall_cons in HP as [HPx HPl].
  constructor; [exact (IH HPl)|].
  apply Forall_forall. intros y Hy. split; [|split].
  - exact (proj1 (Forall_forall _ _) Hx y Hy).
  - exact HPx.
  - exact (proj1 (Forall_forall _ _) HPl y Hy).
Qed.

Lemma filter_decorated (float : string → option pyfloat) (v : pyfloat)
    (d : list (pyfloat * (string * HomologyHit))) :
  Forall (λ p, float (Score p.2.2) = Some p.1) d →
  List.filter (score_is float v) d.*2 = (List.filter (tie v) d).*2.
Proof.
  induction 1 as [|p d Hp _ IH]; [reflexivity|].
  assert (Hpv : score_is float v p.2 = tie v p).
  { unfold score_is, tie. rewrite Hp. reflexivity. }
  change (List.filter (score_is float v) (p :: d).*2)
    with (if score_is float v p.2
          then p.2 :: List.filter (score_is float v) d.*2
          else List.filter (score_is float v) d.*2).
  cbn [List.filter]. rewrite Hpv, IH.
  destruct (tie v p); reflexivity.
Qed.

(** Keys that are all numbers pass the test of the first case of
    [sorted_reverse]. *)
Lemma forallb_not_nan {A : Type} (d : list (pyfloat * A)) :
  Forall (λ p, is_nan p.1 = false) d →
  forallb (λ k, negb (is_nan k)) d.*1 = true.
Proof.
  induction 1 as [|p d Hp _ IH]; [reflexivity|].
  cbn [fmap list_fmap forallb]. rewrite Hp, IH. reflexivity.
Qed.

(** What [sorted(..., reverse=True)] returns on hits whose scores are all
    numbers. *)
Lemma sorted_reverse_hits (sorted_nan : list pyfloat → list nat)
    (float : string → option pyfloat) (l r : list (string * HomologyHit)) :
  Forall (λ h, ∃ v, float (Score h.2) = Some v ∧ v ≠ NaN) l →
  sorted_reverse sorted_nan (λ x, float (Score x.2)) l = Some r →
  r ≡ₚ l
  ∧ StronglySorted (score_desc float) r
  ∧ ∀ v, List.filter (score_is float v) r = List.filter (score_is float v) l.
Proof.
  unfold sorted_reverse. intros Hnum H.
  destruct (decorate (λ x, float (Score x.2)) l) as [d|] eqn:Hd;
    [|discriminate H].
  destruct (decorate_spec _ _ _ Hd) as [Hl Hkeys].
  assert (Hnan : Forall (λ p : pyfloat * (string * HomologyHit),
                           is_nan p.1 = false) d).
  { apply Forall_forall. intros p Hp.
    assert (Hin : p.2 ∈ l).
    { rewrite <- Hl. apply list_elem_of_fmap. exists p. split; [reflexivity|exact Hp]. }
    destruct (proj1 (Forall_forall _ _) Hnum p.2 Hin) as (v & Hv & Hne).
    rewrite (proj1 (Forall_forall _ _) Hkeys p Hp) in Hv.
    injection Hv as ->. destruct v; try reflexivity. destruct (Hne eq_refl). }
  cbn in H. rewrite (forallb_not_nan d Hnan) in H. injection H as <-.
  split; [|split].
  - rewrite <- Hl. apply fmap_Permutation, sort_desc_perm.
  - apply (StronglySorted_fmap snd
             (λ a b, desc a b
                     ∧ float (Score a.2.2) = Some a.1
                     ∧ float (Score b.2.2) = Some b.1)).
    + intros a b (Hab & Ha & Hb). exists a.1, b.1. auto.
    + apply (StronglySorted_and_Forall desc
               (λ p, float (Score p.2.2) = Some p.1));
        [apply sort_desc_sorted, Hnan|].
      rewrite sort_desc_perm. exact Hkeys.
  - intros v. rewrite <- Hl.
    rewrite !filter_decorated, sort_desc_filter; [reflexivity|exact Hkeys|].
    rewrite sort_desc_perm. exact Hkeys.
Qed.

(** Ranking succeeds when [float] accepts every score. *)
Lemma rank_hits_total (sorted_nan : list pyfloat → list nat)
    (float : string → option pyfloat)
    (kmer_results : list (string * HomologyHit)) :
  Forall (λ h, is_Some (float (Score h.2))) kmer_results →
  is_Some (rank_hits sorted_nan float kmer_results).
Proof.
  intros Hscores. unfold rank_hits.
  destruct kmer_results as [|h hs]; [eexists; reflexivity|].
  unfold sorted_reverse, decorate.
  destruct (proj2 (mapM_is_Some
              (λ x : string * HomologyHit, k ← float (Score x.2); Some (k, x))
              (h :: hs))) as [d Hd].
  - eapply Forall_impl; [exact Hscores|].
    intros x [k Hk]. cbn. rewrite Hk. eexists. reflexivity.
  - rewrite Hd. eexists. reflexivity.
Qed.

(** The ranked list holds the hits of the mapping, whatever their
    scores. *)
Lemma rank_hits_perm (sorted_nan : list pyfloat → list nat)
    (float : string → option pyfloat)
    (kmer_results kmer_hits : list (string * HomologyHit)) :
  rank_hits sorted_nan float kmer_results = Some kmer_hits →
  kmer_hits ≡ₚ kmer_results.
Proof.
  unfold rank_hits. destruct kmer_results as [|h hs].
  { intros [= <-]. reflexivity. }
  unfold sorted_reverse.
  destruct (decorate (λ x : string * HomologyHit, float (Score x.2)) (h :: hs))
    as [d|] eqn:Hd; [|intros H; discriminate H].
  destruct (decorate_spec _ _ _ Hd) as [Hl _]. cbn [mbind option_bind].
  intros [= <-]. rewrite <- Hl.
  destruct (forallb _ _); [apply fmap_Permutation, sort_desc_perm|].
  destruct (no_ascent _); [reflexivity|].
  apply fmap_Permutation, arrange_perm.
Qed.

(** Ranking succeeds only when [float] accepts every score. *)
Lemma rank_hits_scores (sorted_nan : list pyfloat → list nat)
    (float : string → option pyfloat)
    (kmer_results kmer_hits : list (string * HomologyHit)) :
  rank_hits sorted_nan float kmer_results = Some kmer_hits →
  Forall (λ h, is_Some (float (Score h.2))) kmer_hits.
Proof.
  intros Hrank. rewrite (rank_hits_perm _ _ _ _ Hrank).
  unfold rank_hits in Hrank. destruct kmer_results as [|x l]; [constructor|].
  unfold sorted_reverse in Hrank.
  destruct (decorate (λ x : string * HomologyHit, float (Score x.2)) (x :: l))
    as [d|] eqn:Hd; [|discriminate Hrank].
  destruct (decorate_spec _ _ _ Hd) as [Hl Hkeys].
  rewrite <- Hl. apply Forall_fmap.
  eapply Forall_impl; [exact Hkeys|].
  intros p Hp. cbn. rewrite Hp. eexists. reflexivity.
Qed.

(** A score that [float] refuses ends the run before the result file is
    opened. *)
Lemma unparsable_score_aborts (set_iter : gset string → list string)
    (sorted_nan : list pyfloat → list nat) (float : string → option pyfloat)
    (ev : Evidence) (kmer_results : list (string * HomologyHit)) :
  Exists (λ h, float (Score h.2) = None) kmer_results →
  main_core set_iter sorted_nan float ev kmer_results = Aborted ValueError.
Proof.
  intros Hbad. unfold main_core.
  assert (Hrank : rank_hits sorted_nan float kmer_results = None).
  { unfold rank_hits. destruct kmer_results as [|h hs];
      [apply Exists_nil in Hbad; destruct Hbad|].
    unfold sorted_reverse, decorate.
    assert (Hd : mapM (λ x : string * HomologyHit,
                         k ← float (Score x.2); Some (k, x)) (h :: hs) = None).
    { apply mapM_None. eapply Exists_impl; [exact Hbad|].
      intros x Hx. cbn. rewrite Hx. reflexivity. }
    rewrite Hd. reflexivity. }
  rewrite Hrank. reflexivity.
Qed.

(** ** The three branches of the result file *)

(** The branch without a type. *)
Lemma main_core_none (set_iter : gset string → list string)
    (sorted_nan : list pyfloat → list nat)
    (float : string → option pyfloat) (ev : Evidence)
    (kmer_results kmer_hits : list (string * HomologyHit)) :
  rank_hits sorted_nan float kmer_results = Some kmer_hits →
  perform_sccmec_typing (all_classes_of ev) = [] →
  main_core set_iter sorted_nan float ev kmer_results
  = Finished
      (resistance_lines (mrsa_gene ev)
       +:+ ("No SCCmec element was detected" +:+ Py.nl)
       +:+ section_text set_iter "Detected gene complexes:" (all_classes_of ev)
       +:+ best_match_text set_iter kmer_hits (total_genes_of ev))
      (write_html kmer_hits).
Proof.
  intros Hrank Htypes. unfold main_core. rewrite Hrank, Htypes.
  unfold write_report. rewrite !write_section_eq.
  destruct kmer_hits as [|[best_hit data] hits].
  - run_writes. reflexivity.
  - rewrite write_section_eq. run_writes. reflexivity.
Qed.

(** The branch with several types. *)
Lemma main_core_several (set_iter : gset string → list string)
    (sorted_nan : list pyfloat → list nat)
    (float : string → option pyfloat) (ev : Evidence)
    (kmer_results kmer_hits : list (string * HomologyHit)) :
  rank_hits sorted_nan float kmer_results = Some kmer_hits →
  1 < length (perform_sccmec_typing (all_classes_of ev)) →
  main_core set_iter sorted_nan float ev kmer_results
  = Finished
      (resistance_lines (mrsa_gene ev)
       +:+ ("Alert! Possible "
            +:+ Py.str_of_nat (length (perform_sccmec_typing (all_classes_of ev)))
            +:+ " SCCmec cassettes were predicted:" +:+ Py.nl)
       +:+ (Py.join Py.nl (perform_sccmec_typing (all_classes_of ev))
            +:+ Py.nl +:+ Py.nl))
      (write_html kmer_hits).
Proof.
  intros Hrank Hlen. unfold main_core. rewrite Hrank.
  unfold write_report.
  destruct (perform_sccmec_typing (all_classes_of ev)) as [|t types] eqn:Ht;
    [simpl in Hlen; lia|].
  apply Nat.ltb_lt in Hlen. rewrite Hlen. run_writes. reflexivity.
Qed.

(** ** The ranked hits in the two files *)

(** C8, as stated, fails: [float] reads 'nan', every comparison with nan is
    false, and [sorted] leaves the scores 1, nan, 2 as they are; the hit
    reported as the best match has score 1 while another has score 2. And
    a score that [float] refuses leaves no ranked list at all. *)
Lemma ranked_with_nan_not_descending :
  (∀ sorted_nan : list pyfloat → list nat,
     rank_hits sorted_nan float_decimal hits_with_nan = Some hits_with_nan)
  ∧ ¬ StronglySorted (score_desc float_decimal) hits_with_nan
  ∧ (∀ sorted_nan : list pyfloat → list nat,
       rank_hits sorted_nan float_decimal
         [("SCCmec_type_I(1B)", sample_hit "n/a" "80.0")]
       = None)
  ∧ main_core elements in_place float_decimal no_evidence hits_with_nan
    = Finished
        ("The input organism was predicted as a MSSA isolate" +:+ Py.nl
         +:+ "The mecA/mecC gene was not detected" +:+ Py.nl +:+ Py.nl
         +:+ "No SCCmec element was detected" +:+ Py.nl +:+ Py.nl
         +:+ "Best homology match: SCCmec_type_I(1B) (80.0% coverage)" +:+ Py.nl
         +:+ Py.nl +:+ "Missing genes for this cassette:" +:+ Py.nl
         +:+ Py.join Py.nl
               (elements (dict_get SCCMEC_DEFINITIONS "SCCmec_type_I(1B)"))
         +:+ Py.nl)
        (write_html hits_with_nan).
Proof.
  split; [intros sorted_nan; vm_compute; reflexivity|].
  split; [|split; [intros sorted_nan|]; vm_compute; reflexivity].
  intros H. apply StronglySorted_inv in H as [_ H].
  apply Forall_cons in H as [_ H]. apply Forall_cons in H as [H _].
  destruct H as (va & vb & Ha & Hb & Hle).
  vm_compute in Ha, Hb. injection Ha as <-. injection Hb as <-.
  vm_compute in Hle. discriminate Hle.
Qed.

(** C8, amended. When [float] reads every score as a number, the ranked
    list exists and holds the hits of the mapping in descending order of
    their score, the hits of equal score in their encounter order. Its
    first element is the hit of the line 'Best homology match' of the
    branch without a type and of the line 'Prediction based on homology'
    of the branch with one type, and the homology table lists its first
    five elements in order. *)
Theorem rank_hits_sorted_stable
    (set_iter : gset string → list string)
    (sorted_nan : list pyfloat → list nat) (float : string → option pyfloat)
    (ev : Evidence) (kmer_results : list (string * HomologyHit)) :
  Forall (λ h, ∃ v, float (Score h.2) = Some v ∧ v ≠ NaN) kmer_results →
  ∃ kmer_hits,
    rank_hits sorted_nan float kmer_results = Some kmer_hits
    ∧ kmer_hits ≡ₚ kmer_results
    ∧ StronglySorted (score_desc float) kmer_hits
    ∧ (∀ v, List.filter (score_is float v) kmer_hits
            = List.filter (score_is float v) kmer_results)
    ∧ (perform_sccmec_typing (all_classes_of ev) = [] →
       ∃ html,
         main_core set_iter sorted_nan float ev kmer_results
         = Finished
             (resistance_lines (mrsa_gene ev)
              +:+ ("No SCCmec element was detected" +:+ Py.nl)
              +:+ section_text set_iter "Detected gene complexes:"
                    (all_classes_of ev)
              +:+ match kmer_hits with
                  | (best_hit, data) :: _ =>
                      (Py.nl +:+ "Best homology match: " +:+ best_hit +:+ " ("
                       +:+ template_coverage data +:+ "% coverage)" +:+ Py.nl)
                      +:+ section_text set_iter
                            "Missing genes for this cassette:"
                            (missing_genes (total_genes_of ev) best_hit)
                  | [] => ""
                  end)
             html)
    ∧ (∀ (db_hit text html : string),
         perform_sccmec_typing (all_classes_of ev) = [db_hit] →
         main_core set_iter sorted_nan float ev kmer_results
         = Finished text html →
         text
         = resistance_lines (mrsa_gene ev)
           +:+ (write_subtyping set_iter (perform_subtyping_of [db_hit])
                  (kmer_subtype_of kmer_hits) (subtyping_genes ev) db_hit).1
           +:+ ("Prediction based on genes: " +:+ db_hit +:+ Py.nl)
           +:+ match kmer_hits with
               | (name, data) :: _ =>
                   if Py.truthy (Py.split "|" name).1 then
                     "Prediction based on homology: " +:+ (Py.split "|" name).1
                     +:+ " (" +:+ template_coverage data +:+ "% coverage)"
                     +:+ Py.nl
                   else ""
               | [] => ""
               end
           +:+ section_text set_iter "Additional complexes found:"
                 (additional_complexes (all_classes_of ev) db_hit)
           +:+ section_text set_iter "Additional genes found:"
                 (additional_genes (total_genes_of ev) db_hit))
    ∧ (∀ text html : string,
         main_core set_iter sorted_nan float ev kmer_results
         = Finished text html →
         html = ("SCCmec elements" +:+ Py.nl)
                +:+ (if decide (kmer_hits = [])
                     then "no whole SCCmec cassette was found" +:+ Py.nl
                     else html_header
                          +:+ String.concat "" (html_row <$> take 5 kmer_hits))).
Proof.
  intros Hnum.
  destruct (rank_hits_total sorted_nan float kmer_results) as [kmer_hits Hrank].
  { eapply Forall_impl; [exact Hnum|]. intros h (v & Hv & _). eauto. }
  exists kmer_hits. split; [exact Hrank|].
  assert (Hsort : kmer_hits ≡ₚ kmer_results
                  ∧ StronglySorted (score_desc float) kmer_hits
                  ∧ ∀ v, List.filter (score_is float v) kmer_hits
                         = List.filter (score_is float v) kmer_results).
  { pose proof Hrank as Hrank'. unfold rank_hits in Hrank'.
    destruct kmer_results as [|h hs].
    - injection Hrank' as <-. repeat split; constructor.
    - exact (sorted_reverse_hits _ _ _ _ Hnum Hrank'). }
  destruct Hsort as (Hperm & Hsorted & Hstable).
  split; [exact Hperm|]. split; [exact Hsorted|]. split; [exact Hstable|].
  split; [|split].
  - intros Htypes. eexists.
    rewrite (main_core_none _ _ _ _ _ _ Hrank Htypes).
    unfold best_match_text. reflexivity.
  - intros db_hit text html Htypes.
    rewrite (main_core_single _ _ _ _ _ _ _ Hrank Htypes).
    destruct (write_subtyping set_iter (perform_subtyping_of [db_hit])
                (kmer_subtype_of kmer_hits) (subtyping_genes ev) db_hit)
      as [w [e|u]]; [intros H; discriminate H|].
    intros [= <- _]. unfold homology_text. reflexivity.
  - intros text html. unfold main_core. rewrite Hrank.
    match goal with
    | |- context [write_report ?a ?b ?c ?d ?e ?f ?g ?h ?i ?j] =>
        destruct (write_report a b c d e f g h i j) as [w [e'|u]]
    end; [intros H; discriminate H|].
    intros [= _ <-]. unfold write_html.
    destruct kmer_hits as [|h hits]; reflexivity.
Qed.

Lemma rank_hits_sorted_stable_witness :
  rank_hits in_place float_decimal hits_with_tie
  = Some [ ("SCCmec_type_IV(2B)", sample_hit "12" "60.0");
           ("SCCmec_type_II(2A)|var1", sample_hit "10.2" "75.5");
           ("SCCmec_type_I(1B)", sample_hit "10.2" "80.0");
           ("SCCmec_type_III(3A)", sample_hit "3.5" "51.0") ]
  ∧ ∃ kmer_hits,
      rank_hits in_place float_decimal hits_with_tie = Some kmer_hits
      ∧ StronglySorted (score_desc float_decimal) kmer_hits
      ∧ List.filter (score_is float_decimal (Finite 10.2)) kmer_hits
        = List.filter (score_is float_decimal (Finite 10.2)) hits_with_tie
      ∧ ∃ html,
          main_core elements in_place float_decimal no_evidence hits_with_tie
          = Finished
              (resistance_lines ""
               +:+ ("No SCCmec element was detected" +:+ Py.nl)
               +:+ section_text elements "Detected gene complexes:" ∅
               +:+ match kmer_hits with
                   | (best_hit, data) :: _ =>
                       (Py.nl +:+ "Best homology match: " +:+ best_hit +:+ " ("
                        +:+ template_coverage data +:+ "% coverage)" +:+ Py.nl)
                       +:+ section_text elements
                             "Missing genes for this cassette:"
                             (missing_genes ∅ best_hit)
                   | [] => ""
                   end)
              html.
Proof.
  split; [vm_compute; reflexivity|].
  destruct (rank_hits_sorted_stable elements in_place float_decimal no_evidence
              hits_with_tie)
    as (kmer_hits & Hrank & _ & Hsorted & Hstable & Hbest & _).
  - repeat first
      [ apply List.Forall_nil
      | apply List.Forall_cons;
        [eexists; split; [vm_compute; reflexivity|intros H; discriminate H]|] ].
  - exists kmer_hits. split; [exact Hrank|]. split; [exact Hsorted|].
    split; [apply Hstable|]. apply Hbest. vm_compute. reflexivity.
Defined.




(** ** Dependence on the iteration order of sets *)

Lemma valid_elements : valid_set_iter elements.
Proof. intros s. reflexivity. Qed.

Lemma valid_reversed_elements : valid_set_iter reversed_elements.
Proof. intros s. unfold reversed_elements. symmetry. apply Permutation_rev. Qed.

Lemma valid_reversed_but (s0 : gset string) : valid_set_iter (reversed_but s0).
Proof.
  intros s. unfold reversed_but. destruct (decide (s = s0)); [reflexivity|].
  symmetry. apply Permutation_rev.
Qed.

(** Two iteration orders agree on a set with at most one element. *)
Lemma valid_set_iter_small (o1 o2 : gset string → list string) (s : gset string) :
  valid_set_iter o1 → valid_set_iter o2 → (size s ≤ 1)%nat → o1 s = o2 s.
Proof.
  intros H1 H2 Hs. specialize (H1 s). specialize (H2 s).
  unfold size, set_size in Hs. cbn in Hs.
  destruct (elements s) as [|x [|y l]]; [| |cbn in Hs; lia].
  - apply Permutation_nil_r in H1, H2. congruence.
  - apply Permutation_singleton_r in H1, H2. congruence.
Qed.

(** A valid iteration order gives the one element of a singleton. *)
Lemma valid_set_iter_singleton (set_iter : gset string → list string) (g : string) :
  valid_set_iter set_iter → set_iter {[g]} = [g].
Proof.
  intros Hvalid. specialize (Hvalid {[g]}). rewrite elements_singleton in Hvalid.
  apply Permutation_singleton_r, Hvalid.
Qed.

(** The subtyping block reads the set of subtyping genes through its
    size, and through its element when it has one: it does the same under
    any two iteration orders. *)
Lemma write_subtyping_valid (o1 o2 : gset string → list string)
    (ps ks : string) (genes : gset string) (db_hit : string) :
  valid_set_iter o1 → valid_set_iter o2 →
  write_subtyping o1 ps ks genes db_hit = write_subtyping o2 ps ks genes db_hit.
Proof.
  intros H1 H2. unfold write_subtyping.
  destruct (String.eqb ps "Yes" && Py.truthy ks); [|reflexivity].
  destruct (1 <? size genes)%nat; [reflexivity|].
  destruct (size genes =? 1)%nat eqn:Hsize; [|reflexivity].
  apply Nat.eqb_eq, size_1_elem_of in Hsize as [g Hg].
  apply leibniz_equiv in Hg. subst genes.
  rewrite (valid_set_iter_singleton o1 g H1), (valid_set_iter_singleton o2 g H2).
  reflexivity.
Qed.

Lemma section_text_agree (o1 o2 : gset string → list string)
    (heading : string) (s : gset string) :
  (s ≠ ∅ → o1 s = o2 s) →
  section_text o1 heading s = section_text o2 heading s.
Proof.
  intros H. unfold section_text.
  destruct (decide (s ≠ ∅)) as [Hs|_]; [rewrite (H Hs)|]; reflexivity.
Qed.

(** A text inside a longer one. *)
Lemma occurs_here (x after : string) :
  ∃ b a, x +:+ after = b +:+ x +:+ a.
Proof. exists "", after. reflexivity. Qed.

Lemma occurs_append_l (p x t : string) :
  (∃ b a, t = b +:+ x +:+ a) → ∃ b a, p +:+ t = b +:+ x +:+ a.
Proof.
  intros (b & a & ->). exists (p +:+ b), a. symmetry. apply append_assoc.
Qed.

Lemma occurs_section (set_iter : gset string → list string)
    (heading after : string) (s : gset string) :
  s ≠ ∅ →
  ∃ b a, section_text set_iter heading s +:+ after
         = b +:+ (Py.join Py.nl (set_iter s) +:+ Py.nl) +:+ a.
Proof.
  intros Hs. unfold section_text. rewrite decide_True by exact Hs.
  exists (Py.nl +:+ heading +:+ Py.nl), after. rewrite !append_assoc. reflexivity.
Qed.

(** C9, as stated, fails: the same input under two iteration orders of the
    set of additional genes gives two different result files. *)
Lemma report_depends_on_set_order :
  valid_set_iter elements ∧ valid_set_iter reversed_elements
  ∧ main elements in_place float_decimal rows_IV_2B_extra hits_IVa
    = Finished (text_IV_2B_extra +:+ "ccrA5" +:+ Py.nl +:+ "ccrB6" +:+ Py.nl)
               (write_html hits_IVa)
  ∧ main reversed_elements in_place float_decimal rows_IV_2B_extra hits_IVa
    = Finished (text_IV_2B_extra +:+ "ccrB6" +:+ Py.nl +:+ "ccrA5" +:+ Py.nl)
               (write_html hits_IVa)
  ∧ text_IV_2B_extra +:+ "ccrA5" +:+ Py.nl +:+ "ccrB6" +:+ Py.nl
    ≠ text_IV_2B_extra +:+ "ccrB6" +:+ Py.nl +:+ "ccrA5" +:+ Py.nl.
Proof.
  split; [exact valid_elements|]. split; [exact valid_reversed_elements|].
  split; [vm_compute; reflexivity|]. split; [vm_compute; reflexivity|].
  by_eval.
Qed.

(** The run under two orders that agree on the sets it joins. *)
Lemma main_core_agree (o1 o2 : gset string → list string)
    (sorted_nan : list pyfloat → list nat) (float : string → option pyfloat)
    (ev : Evidence) (kmer_results : list (string * HomologyHit)) :
  valid_set_iter o1 → valid_set_iter o2 →
  (∀ s, s ∈ joined_sets o1 sorted_nan float ev kmer_results → o1 s = o2 s) →
  main_core o1 sorted_nan float ev kmer_results
  = main_core o2 sorted_nan float ev kmer_results.
Proof.
  intros H1 H2 H. unfold joined_sets in H.
  destruct (rank_hits sorted_nan float kmer_results) as [hits|] eqn:Hrank.
  2: { unfold main_core. rewrite Hrank. reflexivity. }
  destruct (perform_sccmec_typing (all_classes_of ev))
    as [|db_hit [|t types]] eqn:Htypes.
  - rewrite (main_core_none o1 _ _ _ _ _ Hrank Htypes) in H.
    rewrite !(main_core_none _ _ _ _ _ _ Hrank Htypes).
    rewrite (section_text_agree o1 o2 _ (all_classes_of ev)).
    2: { intros Hs. apply H, list_elem_of_filter. split; [exact Hs|left]. }
    destruct hits as [|[best_hit data] hits]; [reflexivity|].
    unfold best_match_text.
    rewrite (section_text_agree o1 o2 _
               (missing_genes (total_genes_of ev) best_hit)); [reflexivity|].
    intros Hs. apply H, list_elem_of_filter. split; [exact Hs|right; left].
  - rewrite (main_core_single o1 _ _ _ _ _ _ Hrank Htypes) in H.
    rewrite !(main_core_single _ _ _ _ _ _ _ Hrank Htypes).
    rewrite (write_subtyping_valid o1 o2 _ _ _ _ H1 H2) in H |- *.
    destruct (write_subtyping o2 (perform_subtyping_of [db_hit])
                (kmer_subtype_of hits) (subtyping_genes ev) db_hit)
      as [w [e|u]]; [reflexivity|].
    rewrite (section_text_agree o1 o2 _
               (additional_complexes (all_classes_of ev) db_hit)).
    2: { intros Hs. apply H, list_elem_of_filter. split; [exact Hs|left]. }
    rewrite (section_text_agree o1 o2 _
               (additional_genes (total_genes_of ev) db_hit)); [reflexivity|].
    intros Hs. apply H, list_elem_of_filter. split; [exact Hs|right; left].
  - rewrite !(main_core_several _ _ _ _ _ _ Hrank)
      by (rewrite Htypes; cbn [length]; lia).
    reflexivity.
Qed.

(** C9, amended. Under two iteration orders that agree on the sets the run
    joins, in particular when each of these sets has at most one element,
    the two runs are the same; and the lines joined from such a set are in
    the result file in the iteration order of the set. *)
Theorem report_deterministic_up_to_set_order
    (o1 o2 : gset string → list string)
    (sorted_nan : list pyfloat → list nat) (float : string → option pyfloat)
    (ev : Evidence) (kmer_results : list (string * HomologyHit)) :
  valid_set_iter o1 → valid_set_iter o2 →
  ((∀ s, s ∈ joined_sets o1 sorted_nan float ev kmer_results → o1 s = o2 s) →
   main_core o1 sorted_nan float ev kmer_results
   = main_core o2 sorted_nan float ev kmer_results)
  ∧ (Forall (λ s, (size s ≤ 1)%nat)
            (joined_sets o1 sorted_nan float ev kmer_results) →
     main_core o1 sorted_nan float ev kmer_results
     = main_core o2 sorted_nan float ev kmer_results)
  ∧ (∀ (text html : string) (s : gset string),
       main_core o1 sorted_nan float ev kmer_results = Finished text html →
       s ∈ joined_sets o1 sorted_nan float ev kmer_results →
       ∃ before after,
         text = before +:+ (Py.join Py.nl (o1 s) +:+ Py.nl) +:+ after).
Proof.
  intros H1 H2. split; [apply main_core_agree; assumption|]. split.
  { intros Hsmall. apply main_core_agree; [assumption..|]. intros s Hs.
    apply (valid_set_iter_small o1 o2 s H1 H2).
    exact (proj1 (Forall_forall _ _) Hsmall s Hs). }
  intros text html s Hrun Hs. unfold joined_sets in Hs. rewrite Hrun in Hs.
  apply list_elem_of_filter in Hs as [Hne Hs].
  destruct (rank_hits sorted_nan float kmer_results) as [hits|] eqn:Hrank.
  2: { unfold main_core in Hrun. rewrite Hrank in Hrun. discriminate Hrun. }
  destruct (perform_sccmec_typing (all_classes_of ev))
    as [|db_hit [|t types]] eqn:Htypes.
  - rewrite (main_core_none _ _ _ _ _ _ Hrank Htypes) in Hrun.
    injection Hrun as <- _.
    do 2 apply occurs_append_l.
    apply elem_of_cons in Hs as [->|Hs]; [apply occurs_section, Hne|].
    apply occurs_append_l.
    destruct hits as [|[best_hit data] hits]; [apply elem_of_nil in Hs; destruct Hs|].
    apply list_elem_of_singleton in Hs as ->.
    unfold best_match_text. apply occurs_append_l.
    rewrite <- (append_nil_r (section_text _ _ _)).
    apply occurs_section, Hne.
  - rewrite (main_core_single _ _ _ _ _ _ _ Hrank Htypes) in Hrun.
    destruct (write_subtyping o1 (perform_subtyping_of [db_hit])
                (kmer_subtype_of hits) (subtyping_genes ev) db_hit)
      as [w [e|u]]; [discriminate Hrun|].
    injection Hrun as <- _.
    do 4 apply occurs_append_l.
    apply elem_of_cons in Hs as [->|Hs]; [apply occurs_section, Hne|].
    apply list_elem_of_singleton in Hs as ->.
    apply occurs_append_l.
    rewrite <- (append_nil_r (section_text _ _ _)).
    apply occurs_section, Hne.
  - apply elem_of_nil in Hs. destruct Hs.
Qed.

Lemma report_deterministic_up_to_set_order_witness :
  main_core elements in_place float_decimal
    (parse_rows (rows_IV_2B ++ [sample_row "subtype-IVa:1";
                                sample_row "subtype-IVc:2"])) []
  = main_core reversed_elements in_place float_decimal
      (parse_rows (rows_IV_2B ++ [sample_row "subtype-IVa:1";
                                  sample_row "subtype-IVc:2"])) []
  ∧ main_core elements in_place float_decimal (parse_rows rows_IV_2B_extra)
      hits_IVa
    = main_core (reversed_but {["ccrA5"; "ccrB6"]}) in_place float_decimal
        (parse_rows rows_IV_2B_extra) hits_IVa
  ∧ ∃ before after,
      text_IV_2B_extra +:+ "ccrA5" +:+ Py.nl +:+ "ccrB6" +:+ Py.nl
      = before
        +:+ (Py.join Py.nl (elements ({["ccrA5"; "ccrB6"]} : gset string))
             +:+ Py.nl)
        +:+ after.
Proof.
  split; [|split].
  - apply (proj1 (report_deterministic_up_to_set_order elements
                    reversed_elements in_place float_decimal _ []
                    valid_elements valid_reversed_elements)).
    apply Forall_forall. by_eval.
  - apply (proj1 (report_deterministic_up_to_set_order elements
                    (reversed_but {["ccrA5"; "ccrB6"]}) in_place float_decimal
                    (parse_rows rows_IV_2B_extra) hits_IVa
                    valid_elements (valid_reversed_but _))).
    apply Forall_forall. by_eval.
  - apply (proj2 (proj2 (report_deterministic_up_to_set_order elements
                           reversed_elements in_place float_decimal
                           (parse_rows rows_IV_2B_extra) hits_IVa
                           valid_elements valid_reversed_elements))
             _ (write_html hits_IVa)).
    + vm_compute. reflexivity.
    + by_eval.
Defined.

(** * Further properties *)

(** ** The parsing loop of the identity-matcher table *)

Lemma prefix_nil (s : string) : String.prefix "" s = true.
Proof. destruct s; reflexivity. Qed.

Lemma prefix_cons_inv (a : ascii) (p s : string) :
  String.prefix (String a p) s = true →
  ∃ s', s = String a s' ∧ String.prefix p s' = true.
Proof.
  destruct s as [|b s]; [discriminate|]. rewrite prefix_cons.
  destruct (ascii_dec a b) as [<-|]; [eauto|discriminate].
Qed.

Lemma prefix_cons_same (a : ascii) (p s : string) :
  String.prefix (String a p) (String a s) = String.prefix p s.
Proof.
  rewrite prefix_cons. destruct (ascii_dec a a); [reflexivity|contradiction].
Qed.

(** Two prefixes of one string are comparable. *)
Lemma prefix_compat (p q s : string) :
  String.prefix p s = true → String.prefix q s = true →
  String.prefix p q = true ∨ String.prefix q p = true.
Proof.
  revert q s. induction p as [|a p IH]; intros q s Hp Hq.
  - left. apply prefix_nil.
  - destruct q as [|c q]; [right; reflexivity|].
    apply prefix_cons_inv in Hp as (s' & -> & Hp).
    apply prefix_cons_inv in Hq as (s'' & [= <- <-] & Hq).
    rewrite !prefix_cons_same. exact (IH q s' Hp Hq).
Qed.

(** Close a goal from two incomparable prefixes of one string. *)
Ltac prefix_clash H1 H2 :=
  let Hc := fresh "Hc" in
  destruct (prefix_compat _ _ _ H1 H2) as [Hc|Hc];
  vm_compute in Hc; discriminate Hc.

Lemma startswith_any_2 (g a b : string) :
  Py.startswith_any g [a; b] = true
  ↔ Py.startswith g a = true ∨ Py.startswith g b = true.
Proof.
  unfold Py.startswith_any. cbn [existsb].
  rewrite !orb_true_iff. intuition discriminate.
Qed.

Lemma startswith_any_3 (g a b c : string) :
  Py.startswith_any g [a; b; c] = true
  ↔ Py.startswith g a = true ∨ Py.startswith g b = true
    ∨ Py.startswith g c = true.
Proof.
  unfold Py.startswith_any. cbn [existsb].
  rewrite !orb_true_iff. intuition discriminate.
Qed.

(** The first segment of a split has no separator. *)
Lemma split_fst_no_sep (c : ascii) (s : string) :
  Py.contains c (Py.split c s).1 = false.
Proof.
  induction s as [|x s IH]; [reflexivity|]. cbn [Py.split].
  destruct (Py.split c s) as [w ws]. destruct (Ascii.eqb x c) eqn:Hx.
  - reflexivity.
  - cbn [fst Py.contains] in *. rewrite Hx, IH. reflexivity.
Qed.

(** A prefix without the separator is a prefix of the first segment. *)
Lemma prefix_split_fst (c : ascii) (p s : string) :
  Py.contains c p = false → String.prefix p s = true →
  String.prefix p (Py.split c s).1 = true.
Proof.
  revert s. induction p as [|a p IH]; intros s Hc Hp; [apply prefix_nil|].
  apply prefix_cons_inv in Hp as (s' & -> & Hp).
  cbn [Py.contains] in Hc. apply orb_false_iff in Hc as [Ha Hc].
  cbn [Py.split]. specialize (IH s' Hc Hp).
  destruct (Py.split c s') as [w ws]. rewrite Ha. cbn [fst] in *.
  rewrite prefix_cons_same. exact IH.
Qed.

(** Other characters than the separator stay out of the first segment. *)
Lemma split_fst_contains (c d : ascii) (s : string) :
  Py.contains d s = false → Py.contains d (Py.split c s).1 = false.
Proof.
  induction s as [|x s IH]; [reflexivity|]. cbn [Py.contains Py.split].
  intros H. apply orb_false_iff in H as [Hx Hs]. specialize (IH Hs).
  destruct (Py.split c s) as [w ws]. destruct (Ascii.eqb x c); [reflexivity|].
  cbn [fst Py.contains] in *. rewrite Hx, IH. reflexivity.
Qed.

Lemma gene_of_no_colon (p0 : string) : Py.contains ":" (gene_of p0) = false.
Proof. apply split_fst_no_sep. Qed.

Lemma gene_partition_no_evidence : gene_partition no_evidence.
Proof.
  unfold gene_partition, no_evidence. cbn.
  split; [|split; [|split]]; apply set_Forall_empty.
Qed.

(** Split the partition of an updated state into its four parts, the
    unchanged ones closed by the hypotheses. *)
Ltac partition_parts :=
  unfold gene_partition;
  cbn [ccrAB_genes ccrC_genes mec_genes subtyping_genes
       add_ccrAB add_ccrC add_mec add_subtyping set_mrsa_gene];
  (split; [|split; [|split]]); try assumption.

(** One turn of the loop keeps the partition. *)
Lemma parse_row_partition (ev : Evidence) (parts : list string) :
  gene_partition ev → gene_partition (parse_row ev parts).
Proof.
  intros Hev. pose proof Hev as (HAB & HC & Hmec & Hsub). unfold parse_row.
  destruct parts as [|p0 [|f1 [|f2 [|f3 more]]]]; try exact Hev.
  pose proof (gene_of_no_colon p0) as Hcolon.
  destruct (Py.startswith (gene_of p0) "ccr") eqn:Hccr.
  - destruct (Py.startswith_any (gene_of p0) ["ccrA"; "ccrB"]) eqn:HA.
    + partition_parts.
      apply set_Forall_union; [apply set_Forall_singleton; auto|exact HAB].
    + destruct (Py.startswith (gene_of p0) "ccrC") eqn:HCC; [|exact Hev].
      partition_parts.
      apply set_Forall_union; [apply set_Forall_singleton; auto|exact HC].
  - destruct (Py.startswith_any (gene_of p0) ["mec"; "IS"; "dme"]) eqn:Hm.
    + assert (Hmec' : set_Forall
                (λ g, Py.startswith_any g ["mec"; "IS"; "dme"] = true
                      ∧ Py.contains ":" g = false)
                ({[gene_of p0]} ∪ mec_genes ev)).
      { apply set_Forall_union; [apply set_Forall_singleton; auto|exact Hmec]. }
      destruct (Py.startswith (gene_of p0) "mecALGA251"); [partition_parts|].
      destruct (Py.startswith (gene_of p0) "mecA"); [partition_parts|].
      destruct (Py.startswith (gene_of p0) "mec-class"); partition_parts.
    + destruct (Py.startswith (gene_of p0) "sub") eqn:Hs; [|exact Hev].
      partition_parts.
      apply set_Forall_union; [|exact Hsub].
      apply set_Forall_singleton. split; [|split].
      * apply prefix_split_fst; [reflexivity|exact Hs].
      * apply split_fst_contains, Hcolon.
      * apply split_fst_no_sep.
Qed.

Lemma fold_parse_row_partition (rows : list (list string)) (ev : Evidence) :
  gene_partition ev → gene_partition (fold_left parse_row rows ev).
Proof.
  revert ev. induction rows as [|parts rows IH]; intros ev Hev; [exact Hev|].
  cbn [fold_left]. apply IH, parse_row_partition, Hev.
Qed.

(** Sets whose tokens have incompatible prefixes are disjoint. *)
Lemma gene_partition_disjoint (ev : Evidence) :
  gene_partition ev →
  ccrAB_genes ev ## ccrC_genes ev ∧ ccrAB_genes ev ## mec_genes ev
  ∧ ccrAB_genes ev ## subtyping_genes ev ∧ ccrC_genes ev ## mec_genes ev
  ∧ ccrC_genes ev ## subtyping_genes ev ∧ mec_genes ev ## subtyping_genes ev.
Proof.
  intros (HAB & HC & Hmec & Hsub).
  repeat split; intros g H1 H2;
    try (apply HAB in H1 as [H1 _]; apply startswith_any_2 in H1);
    try (apply HC in H1 as [H1 _]);
    try (apply HC in H2 as [H2 _]);
    try (apply Hmec in H1 as [H1 _]; apply startswith_any_3 in H1);
    try (apply Hmec in H2 as [H2 _]; apply startswith_any_3 in H2);
    try (apply Hsub in H2 as [H2 _]);
    unfold Py.startswith in *;
    repeat match goal with H : _ ∨ _ |- _ => destruct H as [H|H] end;
    prefix_clash H1 H2.
Qed.

(** X1. After the loop each of the four sets holds only tokens with the
    prefix tested for it, without ':' (and without '|' for the subtyping
    genes), and the four sets are pairwise disjoint. *)
Theorem parse_rows_partition (rows : list (list string)) :
  gene_partition (parse_rows rows)
  ∧ ccrAB_genes (parse_rows rows) ## ccrC_genes (parse_rows rows)
  ∧ ccrAB_genes (parse_rows rows) ## mec_genes (parse_rows rows)
  ∧ ccrAB_genes (parse_rows rows) ## subtyping_genes (parse_rows rows)
  ∧ ccrC_genes (parse_rows rows) ## mec_genes (parse_rows rows)
  ∧ ccrC_genes (parse_rows rows) ## subtyping_genes (parse_rows rows)
  ∧ mec_genes (parse_rows rows) ## subtyping_genes (parse_rows rows).
Proof.
  assert (H : gene_partition (parse_rows rows)).
  { apply fold_parse_row_partition, gene_partition_no_evidence. }
  split; [exact H|]. apply gene_partition_disjoint, H.
Qed.

(** One turn of the loop adds to each set what the row alone gives. *)
Lemma parse_row_genes (ev : Evidence) (parts : list string) :
  ccrAB_genes (parse_row ev parts)
  = ccrAB_genes (parse_row no_evidence parts) ∪ ccrAB_genes ev
  ∧ ccrC_genes (parse_row ev parts)
    = ccrC_genes (parse_row no_evidence parts) ∪ ccrC_genes ev
  ∧ mec_genes (parse_row ev parts)
    = mec_genes (parse_row no_evidence parts) ∪ mec_genes ev
  ∧ subtyping_genes (parse_row ev parts)
    = subtyping_genes (parse_row no_evidence parts) ∪ subtyping_genes ev.
Proof.
  unfold parse_row.
  destruct parts as [|p0 [|f1 [|f2 [|f3 more]]]];
    try (cbn; rewrite !union_empty_l_L; auto).
  destruct (Py.startswith (gene_of p0) "ccr").
  - destruct (Py.startswith_any (gene_of p0) ["ccrA"; "ccrB"]);
      [|destruct (Py.startswith (gene_of p0) "ccrC")];
      cbn; rewrite ?union_empty_r_L, ?union_empty_l_L; auto.
  - destruct (Py.startswith_any (gene_of p0) ["mec"; "IS"; "dme"]).
    + destruct (Py.startswith (gene_of p0) "mecALGA251");
        [|destruct (Py.startswith (gene_of p0) "mecA");
          [|destruct (Py.startswith (gene_of p0) "mec-class")]];
        cbn; rewrite ?union_empty_r_L, ?union_empty_l_L; auto.
    + destruct (Py.startswith (gene_of p0) "sub");
        cbn; rewrite ?union_empty_r_L, ?union_empty_l_L; auto.
Qed.

Section GeneSets.

(** One of the four sets. *)
Variable f : Evidence → gset string.
Hypothesis f_row : ∀ ev parts,
  f (parse_row ev parts) = f (parse_row no_evidence parts) ∪ f ev.

Lemma fold_parse_row_union (rows : list (list string)) (ev : Evidence) :
  f (fold_left parse_row rows ev)
  = ⋃ ((λ parts, f (parse_row no_evidence parts)) <$> rows) ∪ f ev.
Proof.
  revert ev. induction rows as [|parts rows IH]; intros ev.
  - cbn. rewrite union_empty_l_L. reflexivity.
  - cbn [fold_left]. rewrite IH, f_row. cbn [fmap list_fmap union_list foldr].
    rewrite (assoc_L (∪)).
    rewrite (comm_L (∪) (f (parse_row no_evidence parts))). reflexivity.
Qed.

Lemma fold_parse_row_perm (rows rows' : list (list string)) (ev : Evidence) :
  rows ≡ₚ rows' →
  f (fold_left parse_row rows ev) = f (fold_left parse_row rows' ev).
Proof.
  intros Hperm. rewrite !fold_parse_row_union. f_equal.
  apply set_eq. intros x. rewrite !elem_of_union_list.
  split; intros (X & HX & Hx); exists X; split; try exact Hx;
    [rewrite <- Hperm|rewrite Hperm]; exact HX.
Qed.

End GeneSets.

(** X2. The four gene sets do not depend on the order of the rows. *)
Theorem parse_rows_order_independent (rows rows' : list (list string)) :
  rows ≡ₚ rows' → same_genes (parse_rows rows) (parse_rows rows').
Proof.
  intros Hperm. unfold same_genes, parse_rows.
  split; [|split; [|split]]; apply fold_parse_row_perm; try exact Hperm;
    intros ev parts; apply parse_row_genes.
Qed.

Lemma parse_rows_order_independent_witness :
  same_genes
    (parse_rows [sample_row "mecA:1"; sample_row "ccrA2:1"; sample_row "mecALGA251:1"])
    (parse_rows [sample_row "mecALGA251:1"; sample_row "mecA:1"; sample_row "ccrA2:1"])
  ∧ mrsa_gene (parse_rows [sample_row "mecA:1"; sample_row "ccrA2:1";
                           sample_row "mecALGA251:1"])
    ≠ mrsa_gene (parse_rows [sample_row "mecALGA251:1"; sample_row "mecA:1";
                             sample_row "ccrA2:1"]).
Proof.
  split.
  - apply parse_rows_order_independent.
    apply (Permutation_app_comm
             [sample_row "mecA:1"; sample_row "ccrA2:1"]
             [sample_row "mecALGA251:1"]).
  - by_eval.
Defined.

Lemma parse_row_not_data (ev : Evidence) (parts : list string) :
  is_data_row parts = false → parse_row ev parts = ev.
Proof.
  unfold is_data_row.
  destruct parts as [|p0 [|f1 [|f2 [|f3 more]]]]; try reflexivity.
  discriminate.
Qed.

Lemma fold_parse_row_data (rows : list (list string)) (ev : Evidence) :
  fold_left parse_row rows ev
  = fold_left parse_row (List.filter is_data_row rows) ev.
Proof.
  revert ev. induction rows as [|parts rows IH]; intros ev; [reflexivity|].
  cbn [fold_left List.filter]. destruct (is_data_row parts) eqn:Hd.
  - cbn [fold_left]. apply IH.
  - rewrite (parse_row_not_data ev parts Hd). apply IH.
Qed.

(** X3. Rows with fewer than four fields change nothing: the loop gives
    the same sets and the same marker as on the other rows alone. *)
Theorem parse_rows_skips_short_rows (rows : list (list string)) :
  parse_rows rows = parse_rows (List.filter is_data_row rows).
Proof. apply fold_parse_row_data. Qed.

Lemma marker_of_gene_cases (gene m : string) :
  marker_of_gene gene = Some m → m = "mecA" ∨ m = "mecALGA251".
Proof.
  unfold marker_of_gene.
  destruct (Py.startswith gene "mecALGA251"); [intros [= <-]; auto|].
  destruct (Py.startswith gene "mecA"); [intros [= <-]; auto|].
  destruct (Py.startswith gene "mec-class"); [intros [= <-]; auto|discriminate].
Qed.

Lemma marker_of_gene_some (gene : string) :
  is_Some (marker_of_gene gene)
  ↔ Py.startswith gene "mecA" = true ∨ Py.startswith gene "mec-class" = true.
Proof.
  unfold marker_of_gene, Py.startswith. split.
  - destruct (String.prefix "mecALGA251" gene) eqn:H1.
    { intros _. left. exact (prefix_app_l "mecA" "LGA251" gene H1). }
    destruct (String.prefix "mecA" gene); [auto|].
    destruct (String.prefix "mec-class" gene); [auto|].
    intros [m Hm]. discriminate Hm.
  - intros [H|H].
    + destruct (String.prefix "mecALGA251" gene); [eexists; reflexivity|].
      rewrite H. eexists. reflexivity.
    + destruct (String.prefix "mecALGA251" gene); [eexists; reflexivity|].
      destruct (String.prefix "mecA" gene); [eexists; reflexivity|].
      rewrite H. eexists. reflexivity.
Qed.

(** One turn of the loop keeps the invariant on the marker. *)
Lemma parse_row_marker_invariant (ev : Evidence) (parts : list string) :
  marker_invariant ev → marker_invariant (parse_row ev parts).
Proof.
  intros Hev. unfold parse_row.
  destruct parts as [|p0 [|f1 [|f2 [|f3 more]]]]; try exact Hev.
  destruct (Py.startswith (gene_of p0) "ccr").
  { destruct (Py.startswith_any (gene_of p0) ["ccrA"; "ccrB"]); [exact Hev|].
    destruct (Py.startswith (gene_of p0) "ccrC"); exact Hev. }
  destruct (Py.startswith_any (gene_of p0) ["mec"; "IS"; "dme"]);
    [|destruct (Py.startswith (gene_of p0) "sub"); exact Hev].
  assert (Hin : gene_of p0 ∈ {[gene_of p0]} ∪ mec_genes ev).
  { apply elem_of_union. left. apply elem_of_singleton. reflexivity. }
  destruct (marker_of_gene (gene_of p0)) as [m|] eqn:Hm.
  - right. exists (gene_of p0). pose proof Hm as Hm0.
    unfold marker_of_gene in Hm.
    destruct (Py.startswith (gene_of p0) "mecALGA251");
      [injection Hm as <-; split; [exact Hin|exact Hm0]|].
    destruct (Py.startswith (gene_of p0) "mecA");
      [injection Hm as <-; split; [exact Hin|exact Hm0]|].
    destruct (Py.startswith (gene_of p0) "mec-class");
      [injection Hm as <-; split; [exact Hin|exact Hm0]|discriminate Hm].
  - assert (Hstep :
      (if Py.startswith (gene_of p0) "mecALGA251"
       then set_mrsa_gene "mecALGA251" (add_mec (gene_of p0) ev)
       else if Py.startswith (gene_of p0) "mecA"
            then set_mrsa_gene "mecA" (add_mec (gene_of p0) ev)
            else if Py.startswith (gene_of p0) "mec-class"
                 then set_mrsa_gene "mecA" (add_mec (gene_of p0) ev)
                 else add_mec (gene_of p0) ev)
      = add_mec (gene_of p0) ev).
    { unfold marker_of_gene in Hm.
      destruct (Py.startswith (gene_of p0) "mecALGA251"); [discriminate Hm|].
      destruct (Py.startswith (gene_of p0) "mecA"); [discriminate Hm|].
      destruct (Py.startswith (gene_of p0) "mec-class");
        [discriminate Hm|reflexivity]. }
    rewrite Hstep. destruct Hev as [[Hempty Hnone]|(g & Hg & Hgm)].
    + left. split; [exact Hempty|]. cbn [mec_genes add_mec].
      apply set_Forall_union; [apply set_Forall_singleton, Hm|exact Hnone].
    + right. exists g. split; [|exact Hgm]. cbn [mec_genes add_mec].
      apply elem_of_union. right. exact Hg.
Qed.

Lemma parse_rows_marker_invariant (rows : list (list string)) :
  marker_invariant (parse_rows rows).
Proof.
  unfold parse_rows.
  assert (H : ∀ ev, marker_invariant ev →
                    marker_invariant (fold_left parse_row rows ev)).
  { induction rows as [|parts rows IH]; intros ev Hev; [exact Hev|].
    cbn [fold_left]. apply IH, parse_row_marker_invariant, Hev. }
  apply H. left. split; [reflexivity|]. apply set_Forall_empty.
Qed.

(** X4. After the loop the marker is empty, 'mecA' or 'mecALGA251', and it
    is not empty exactly when some token kept in [mec_genes] begins with
    'mecA' or with 'mec-class'. *)
Theorem mrsa_gene_reflects_mec_genes (rows : list (list string)) :
  (mrsa_gene (parse_rows rows) = "" ∨ mrsa_gene (parse_rows rows) = "mecA"
   ∨ mrsa_gene (parse_rows rows) = "mecALGA251")
  ∧ (mrsa_gene (parse_rows rows) ≠ ""
     ↔ ∃ g, g ∈ mec_genes (parse_rows rows)
            ∧ (Py.startswith g "mecA" = true
               ∨ Py.startswith g "mec-class" = true)).
Proof.
  destruct (parse_rows_marker_invariant rows) as [[Hempty Hnone]|(g & Hg & Hgm)].
  - split; [left; exact Hempty|]. split; [intros H; destruct (H Hempty)|].
    intros (g & Hg & Hpre). apply marker_of_gene_some in Hpre as [m Hm].
    rewrite (Hnone g Hg) in Hm. discriminate Hm.
  - pose proof (marker_of_gene_cases _ _ Hgm) as Hcases. split.
    + right. exact Hcases.
    + split.
      * intros _. exists g. split; [exact Hg|].
        apply marker_of_gene_some. eexists. exact Hgm.
      * intros _ Hempty. rewrite Hempty in Hcases.
        destruct Hcases as [H|H]; discriminate H.
Qed.

(** ** The classifiers on parsed evidence *)

Lemma elem_of_all_classes (ev : Evidence) (c : string) :
  c ∈ all_classes_of ev
  ↔ c ∈ perform_ccr_gene_complex_typing (ccrAB_genes ev) (ccrC_genes ev)
    ∨ c ∈ perform_mec_gene_complex_typing (mec_genes ev).
Proof. unfold all_classes_of. rewrite elem_of_list_to_set, elem_of_app. tauto. Qed.

(** Read what a class label in the class set says about the genes. *)
Ltac class_cases H :=
  apply elem_of_all_classes in H as [H|H];
  [apply elem_of_ccr_typing in H|apply elem_of_mec_typing in H];
  rule_cases H.

Lemma mec_class_A_genes (ev : Evidence) :
  "mec class A" ∈ all_classes_of ev → {["mecA"; "mecR1"; "mecI"]} ⊆ mec_genes ev.
Proof. intros H. class_cases H. exact H. Qed.

Lemma mec_class_B_genes (ev : Evidence) :
  "mec class B" ∈ all_classes_of ev →
  {["mecA"; "dmecR1"; "IS1272"]} ⊆ mec_genes ev.
Proof. intros H. class_cases H. exact H. Qed.

Lemma mec_class_C1_genes (ev : Evidence) :
  "mec class C1" ∈ all_classes_of ev → {["mecA"; "mec-class-C1"]} ⊆ mec_genes ev.
Proof. intros H. class_cases H. exact H. Qed.

Lemma mec_class_C2_genes (ev : Evidence) :
  "mec class C2" ∈ all_classes_of ev → {["mecA"; "mec-class-C2"]} ⊆ mec_genes ev.
Proof. intros H. class_cases H. exact H. Qed.

Lemma ccr_class_5_genes (ev : Evidence) :
  "ccr class 5" ∈ all_classes_of ev →
  "ccrC11" ∈ ccrC_genes ev ∧ "ccrC12" ∉ ccrC_genes ev.
Proof.
  intros H. class_cases H. destruct H as [Hnot H11]. split; [exact H11|].
  intros H12. apply Hnot, subseteq_2. auto.
Qed.

Lemma ccr_class_55_genes (ev : Evidence) :
  "ccr class 5&5" ∈ all_classes_of ev →
  "ccrC11" ∈ ccrC_genes ev ∧ "ccrC12" ∈ ccrC_genes ev.
Proof. intros H. class_cases H. apply subseteq_2, H. Qed.

Lemma ccr_class_9_genes (ev : Evidence) :
  "ccr class 9" ∈ all_classes_of ev → "ccrC21" ∈ ccrC_genes ev.
Proof. intros H. class_cases H. exact H. Qed.

(** Every type but SCCmec_type_XI(8E) needs a mec class that needs mecA. *)
Lemma typed_needs_mecA (ev : Evidence) (t : string) :
  t ∈ perform_sccmec_typing (all_classes_of ev) →
  t = "SCCmec_type_XI(8E)" ∨ "mecA" ∈ mec_genes ev.
Proof.
  intros H. apply elem_of_sccmec_typing in H.
  repeat (destruct H as [H|H]); destruct H as [-> H];
    try (left; reflexivity); right;
    try (destruct H as [_ H]);
    lazymatch type of H with
    | {[_; _; _]} ⊆ _ => apply subseteq_3 in H as (_ & _ & H)
    | {[_; _]} ⊆ _ => apply subseteq_2 in H as [_ H]
    end;
    first [apply mec_class_A_genes, subseteq_3 in H
          |apply mec_class_B_genes, subseteq_3 in H
          |apply mec_class_C1_genes, subseteq_2 in H
          |apply mec_class_C2_genes, subseteq_2 in H];
    apply H.
Qed.

(** X5. Whatever the rows, a type other than SCCmec_type_XI(8E) is found
    only with a non-empty marker, hence under the MRSA lines; and
    SCCmec_type_XI(8E) is found with an empty marker on the isolate that
    carries ccrA1, ccrB3, mecC, mecR1 and mecI. *)
Theorem type_without_marker_is_XI :
  (∀ (rows : list (list string)) (t : string),
     t ∈ perform_sccmec_typing (all_classes_of (parse_rows rows)) →
     t = "SCCmec_type_XI(8E)" ∨ mrsa_gene (parse_rows rows) ≠ "")
  ∧ perform_sccmec_typing (all_classes_of (parse_rows rows_XI_8E))
    = ["SCCmec_type_XI(8E)"]
  ∧ mrsa_gene (parse_rows rows_XI_8E) = "".
Proof.
  split; [|split; vm_compute; reflexivity].
  intros rows t Ht. destruct (typed_needs_mecA _ _ Ht) as [Ht'|HmecA]; [auto|].
  right. intros Hempty.
  destruct (parse_rows_marker_invariant rows) as [[_ Hnone]|(g & _ & Hgm)].
  - specialize (Hnone "mecA" HmecA). vm_compute in Hnone. discriminate Hnone.
  - rewrite Hempty in Hgm. apply marker_of_gene_cases in Hgm as [H|H];
      discriminate H.
Qed.

Lemma type_without_marker_is_XI_witness :
  "SCCmec_type_IV(2B)" = "SCCmec_type_XI(8E)"
  ∨ mrsa_gene (parse_rows rows_IV_2B) ≠ "".
Proof.
  apply (proj1 type_without_marker_is_XI rows_IV_2B "SCCmec_type_IV(2B)").
  by_eval.
Defined.

(** X8. 'ccr class 5' is in the class set exactly for ccrC11 without
    ccrC12: with ccrC12 detected none of the three types that need
    'ccr class 5' is found, and without it SCCmec_type_V(5C2&5) is not
    found. *)
Theorem ccrC12_excludes_class_5_types (ev : Evidence) :
  ("ccrC12" ∈ ccrC_genes ev →
   ("SCCmec_type_IV(2B&5)" ∉ perform_sccmec_typing (all_classes_of ev))
   ∧ ("SCCmec_type_V(5C2)" ∉ perform_sccmec_typing (all_classes_of ev))
   ∧ ("SCCmec_type_VII(5C1)" ∉ perform_sccmec_typing (all_classes_of ev)))
  ∧ ("ccrC12" ∉ ccrC_genes ev →
     "SCCmec_type_V(5C2&5)" ∉ perform_sccmec_typing (all_classes_of ev)).
Proof.
  split.
  - intros H12. split; [|split]; intros H; apply elem_of_sccmec_typing in H;
      rule_cases H.
    + apply subseteq_3 in H as (_ & H & _).
      exact (proj2 (ccr_class_5_genes ev H) H12).
    + apply subseteq_2 in H as [H _].
      exact (proj2 (ccr_class_5_genes ev H) H12).
    + apply subseteq_2 in H as [H _].
      exact (proj2 (ccr_class_5_genes ev H) H12).
  - intros H12 H. apply elem_of_sccmec_typing in H. rule_cases H.
    apply subseteq_2 in H as [H _].
    exact (H12 (proj2 (ccr_class_55_genes ev H))).
Qed.

Lemma ccrC12_excludes_class_5_types_witness :
  ("SCCmec_type_IV(2B&5)"
   ∉ perform_sccmec_typing
       (all_classes_of
          (parse_rows (rows_IV_2B ++ [sample_row "ccrC11:1"; sample_row "ccrC12:1"]))))
  ∧ perform_sccmec_typing
      (all_classes_of
         (parse_rows (rows_IV_2B ++ [sample_row "ccrC11:1"; sample_row "ccrC12:1"])))
    = ["SCCmec_type_IV(2B)"].
Proof.
  split; [|vm_compute; reflexivity].
  apply (proj1 (ccrC12_excludes_class_5_types
                  (parse_rows (rows_IV_2B ++ [sample_row "ccrC11:1";
                                              sample_row "ccrC12:1"])))).
  by_eval.
Defined.

(** ** The order and the range of the classifiers' outputs *)

Lemma sublist_if (P : Prop) `{!Decision P} (a : string) :
  (if decide P then [a] else []) `sublist_of` [a].
Proof. destruct (decide P); [reflexivity|apply sublist_nil_l]. Qed.

Lemma sublist_if_elif (P Q : Prop) `{!Decision P, !Decision Q} (a b : string) :
  (if decide P then [a] else if decide Q then [b] else []) `sublist_of` [a; b].
Proof.
  destruct (decide P); [apply sublist_skip, sublist_nil_l|].
  destruct (decide Q); [apply sublist_cons; reflexivity|apply sublist_nil_l].
Qed.

Lemma sublist_rule (req s : gset string) (label : string) :
  rule req s label `sublist_of` [label].
Proof. apply sublist_if. Qed.

Lemma length_if (P : Prop) `{!Decision P} (a : string) :
  (length (if decide P then [a] else []) ≤ 1)%nat.
Proof. destruct (decide P); cbn; lia. Qed.

Lemma length_if_elif (P Q : Prop) `{!Decision P, !Decision Q} (a b : string) :
  (length (if decide P then [a] else if decide Q then [b] else []) ≤ 1)%nat.
Proof. destruct (decide P); [|destruct (decide Q)]; cbn; lia. Qed.

Lemma length_rule (req s : gset string) (label : string) :
  (length (rule req s label) ≤ 1)%nat.
Proof. apply length_if. Qed.

(** Put a segment of the output against its label. *)
Ltac sublist_segments :=
  repeat first
    [ apply sublist_rule
    | apply sublist_if
    | apply (sublist_app _ [_] _ _); [apply sublist_rule|]
    | apply (sublist_app _ [_; _] _ _); [apply sublist_if_elif|] ].

Lemma ccr_typing_sublist (ccrAB ccrC : gset string) :
  perform_ccr_gene_complex_typing ccrAB ccrC `sublist_of` ccr_class_order.
Proof. unfold perform_ccr_gene_complex_typing, ccr_class_order. sublist_segments. Qed.

Lemma mec_typing_sublist (mec : gset string) :
  perform_mec_gene_complex_typing mec `sublist_of` mec_class_order.
Proof. unfold perform_mec_gene_complex_typing, mec_class_order. sublist_segments. Qed.

Lemma sccmec_typing_sublist (classes : gset string) :
  perform_sccmec_typing classes `sublist_of` sccmec_type_order.
Proof. unfold perform_sccmec_typing, sccmec_type_order. sublist_segments. Qed.

Lemma NoDup_ccr_class_order : NoDup ccr_class_order.
Proof. by_eval. Qed.

Lemma NoDup_mec_class_order : NoDup mec_class_order.
Proof. by_eval. Qed.

Lemma NoDup_sccmec_type_order : NoDup sccmec_type_order.
Proof. by_eval. Qed.

(** X6. Each classifier returns its labels in the order of its rules and
    without repetition, and the CCR classifier returns at most nine of its
    ten labels. *)
Theorem class_typing_ordered (ccrAB_genes ccrC_genes mec_genes : gset string) :
  perform_ccr_gene_complex_typing ccrAB_genes ccrC_genes `sublist_of` ccr_class_order
  ∧ NoDup (perform_ccr_gene_complex_typing ccrAB_genes ccrC_genes)
  ∧ (length (perform_ccr_gene_complex_typing ccrAB_genes ccrC_genes) ≤ 9)%nat
  ∧ perform_mec_gene_complex_typing mec_genes `sublist_of` mec_class_order
  ∧ NoDup (perform_mec_gene_complex_typing mec_genes).
Proof.
  split; [apply ccr_typing_sublist|]. split.
  { eapply sublist_NoDup;
      first [apply ccr_typing_sublist|apply NoDup_ccr_class_order]. }
  split.
  { unfold perform_ccr_gene_complex_typing. rewrite !length_app.
    repeat match goal with
           | |- context [length ?x] =>
               let H := fresh "Hlen" in
               assert (H : (length x ≤ 1)%nat)
                 by first [apply length_rule|apply length_if_elif|apply length_if];
               generalize dependent (length x); intros ? ?
           end.
    lia. }
  split; [apply mec_typing_sublist|].
  eapply sublist_NoDup;
    first [apply mec_typing_sublist|apply NoDup_mec_class_order].
Qed.

Lemma sccmec_type_order_keys :
  Forall (λ t, is_Some (SCCMEC_CLASSES !! t) ∧ is_Some (SCCMEC_DEFINITIONS !! t))
         sccmec_type_order.
Proof. by_eval. Qed.

(** X7. The typer returns its labels in the order of its rules, without
    repetition, at most fourteen of them, and each is a key of both
    reference tables. *)
Theorem sccmec_typing_ordered (classes : gset string) :
  perform_sccmec_typing classes `sublist_of` sccmec_type_order
  ∧ NoDup (perform_sccmec_typing classes)
  ∧ (length (perform_sccmec_typing classes) ≤ 14)%nat
  ∧ (∀ t, t ∈ perform_sccmec_typing classes →
          is_Some (SCCMEC_CLASSES !! t) ∧ is_Some (SCCMEC_DEFINITIONS !! t)).
Proof.
  split; [apply sccmec_typing_sublist|]. split.
  { eapply sublist_NoDup;
      first [apply sccmec_typing_sublist|apply NoDup_sccmec_type_order]. }
  split.
  { unfold perform_sccmec_typing. rewrite !length_app.
    repeat match goal with
           | |- context [length ?x] =>
               let H := fresh "Hlen" in
               assert (H : (length x ≤ 1)%nat)
                 by first [apply length_rule|apply length_if_elif|apply length_if];
               generalize dependent (length x); intros ? ?
           end.
    lia. }
  intros t Ht.
  apply (proj1 (Forall_forall _ _) sccmec_type_order_keys).
  exact (elem_of_sublist _ _ _ Ht (sccmec_typing_sublist classes)).
Qed.

(** ** The two reference tables against the rules *)

(** X9. For every type of the table of reference genes but
    SCCmec_type_XIII(9A), the isolate that carries exactly the reference
    genes of the type is given that type alone, with no additional
    complex and no additional gene. *)
Theorem reference_genes_typed (t : string) (defs : gset string) :
  SCCMEC_DEFINITIONS !! t = Some defs →
  t ≠ "SCCmec_type_XIII(9A)" →
  total_genes_of (evidence_of_genes defs) = defs
  ∧ perform_sccmec_typing (all_classes_of (evidence_of_genes defs)) = [t]
  ∧ additional_complexes (all_classes_of (evidence_of_genes defs)) t = ∅
  ∧ additional_genes (total_genes_of (evidence_of_genes defs)) t = ∅.
Proof.
  unfold SCCMEC_DEFINITIONS. intros Hin Ht.
  apply elem_of_list_to_map_2 in Hin.
  repeat (apply elem_of_cons in Hin as [Hin|Hin];
          [injection Hin as -> ->|]);
    [..|apply elem_of_nil in Hin; destruct Hin];
    try (destruct (Ht eq_refl));
    (split; [by_eval|]); (split; [vm_compute; reflexivity|]);
    split; by_eval.
Qed.

Lemma reference_genes_typed_witness :
  perform_sccmec_typing
    (all_classes_of
       (evidence_of_genes {["ccrA1"; "ccrB6"; "mec-class-C1"; "mecA"]}))
  = ["SCCmec_type_X(7C1)"].
Proof.
  apply (reference_genes_typed "SCCmec_type_X(7C1)"
           {["ccrA1"; "ccrB6"; "mec-class-C1"; "mecA"]}); by_eval.
Defined.

(** X10. An isolate typed SCCmec_type_XIII(9A) always has mecR1 and mecI
    among its additional genes: the rule asks for 'mec class A' while the
    reference genes of the type are those of 'mec class B'; and on these
    reference genes alone no type is found. *)
Theorem XIII_9A_never_exact :
  (∀ ev : Evidence,
     "SCCmec_type_XIII(9A)" ∈ perform_sccmec_typing (all_classes_of ev) →
     {["mecR1"; "mecI"]}
     ⊆ additional_genes (total_genes_of ev) "SCCmec_type_XIII(9A)")
  ∧ perform_sccmec_typing
      (all_classes_of
         (evidence_of_genes
            (dict_get SCCMEC_DEFINITIONS "SCCmec_type_XIII(9A)")))
    = [].
Proof.
  split; [|vm_compute; reflexivity].
  intros ev H. apply elem_of_sccmec_typing in H. rule_cases H.
  apply subseteq_2 in H as [_ H].
  apply mec_class_A_genes, subseteq_3 in H as (_ & HR1 & HI).
  apply subseteq_2. unfold additional_genes, total_genes_of.
  split; apply elem_of_difference; (split; [|by_eval]);
    apply elem_of_union; right; assumption.
Qed.

Lemma XIII_9A_never_exact_witness :
  {["mecR1"; "mecI"]}
  ⊆ additional_genes (total_genes_of (parse_rows rows_XIII_9A))
      "SCCmec_type_XIII(9A)".
Proof.
  apply (proj1 XIII_9A_never_exact (parse_rows rows_XIII_9A)). by_eval.
Defined.

(** ** The parsing loop of the k-mer table *)

Section DictSet.

Context {V : Type}.
Implicit Types (d : list (string * V)) (k : string) (v : V).

Lemma dict_set_keys k v d :
  (dict_set k v d).*1 = if decide (k ∈ d.*1) then d.*1 else (d.*1 ++ [k])%list.
Proof.
  induction d as [|[k' v'] d IH]; [reflexivity|]. cbn [dict_set].
  destruct (String.eqb_spec k' k) as [->|Hne].
  - cbn [fmap list_fmap fst]. rewrite decide_True by apply list_elem_of_here.
    reflexivity.
  - cbn [fmap list_fmap fst]. fold (d.*1). fold ((dict_set k v d).*1).
    rewrite IH. destruct (decide (k ∈ d.*1)) as [Hin|Hin].
    + rewrite decide_True by (apply list_elem_of_further, Hin). reflexivity.
    + rewrite decide_False; [reflexivity|].
      intros H. apply elem_of_cons in H as [->|H]; [exact (Hne eq_refl)|auto].
Qed.

Lemma dict_lookup_set_eq k v d : dict_lookup k (dict_set k v d) = Some v.
Proof.
  induction d as [|[k' v'] d IH]; cbn [dict_set dict_lookup].
  - rewrite String.eqb_refl. reflexivity.
  - destruct (String.eqb k' k) eqn:He; cbn [dict_lookup].
    + rewrite String.eqb_refl. reflexivity.
    + rewrite He. exact IH.
Qed.

Lemma dict_lookup_set_ne k k0 v d :
  k ≠ k0 → dict_lookup k0 (dict_set k v d) = dict_lookup k0 d.
Proof.
  intros Hne. induction d as [|[k' v'] d IH]; cbn [dict_set dict_lookup].
  - destruct (String.eqb_spec k k0); [contradiction|reflexivity].
  - destruct (String.eqb_spec k' k) as [->|Hk]; cbn [dict_lookup].
    + destruct (String.eqb_spec k k0); [contradiction|reflexivity].
    + rewrite IH. reflexivity.
Qed.

Lemma dict_set_Forall (P : string * V → Prop) k v d :
  P (k, v) → Forall P d → Forall P (dict_set k v d).
Proof.
  intros Hkv. induction 1 as [|[k' v'] d Hx Hd IH]; cbn [dict_set].
  - repeat constructor. exact Hkv.
  - destruct (String.eqb k' k); constructor; assumption.
Qed.

Lemma dict_set_NoDup k v d : NoDup d.*1 → NoDup (dict_set k v d).*1.
Proof.
  intros Hd. rewrite dict_set_keys. destruct (decide (k ∈ d.*1)); [exact Hd|].
  apply NoDup_app. split; [exact Hd|]. split; [|apply NoDup_singleton].
  intros x Hx Hk. apply list_elem_of_singleton in Hk as ->. auto.
Qed.

Lemma dict_lookup_app d1 d2 k :
  dict_lookup k (d1 ++ d2)%list
  = match dict_lookup k d1 with
    | Some v => Some v
    | None => dict_lookup k d2
    end.
Proof.
  induction d1 as [|[k' v'] d1 IH]; [reflexivity|].
  cbn [app dict_lookup]. destruct (String.eqb k' k); [reflexivity|exact IH].
Qed.

(** The state after a sequence of assignments. *)
Lemma fold_dict_set_keys (es : list (string * V)) d :
  (fold_left (λ d e, dict_set e.1 e.2 d) es d).*1
  = (d.*1 ++ first_occurrences d.*1 es.*1)%list.
Proof.
  revert d. induction es as [|[k v] es IH]; intros d.
  - cbn. rewrite app_nil_r. reflexivity.
  - cbn [fold_left fst snd]. rewrite IH, dict_set_keys.
    cbn [fmap list_fmap fst first_occurrences]. fold (es.*1).
    destruct (decide (k ∈ d.*1)); [reflexivity|].
    rewrite <- app_assoc. reflexivity.
Qed.

Lemma fold_dict_set_lookup (es : list (string * V)) d k :
  dict_lookup k (fold_left (λ d e, dict_set e.1 e.2 d) es d)
  = match dict_lookup k (reverse es) with
    | Some v => Some v
    | None => dict_lookup k d
    end.
Proof.
  revert d. induction es as [|[k' v'] es IH]; intros d; [reflexivity|].
  cbn [fold_left fst snd]. rewrite IH, reverse_cons, dict_lookup_app.
  destruct (dict_lookup k (reverse es)); [reflexivity|].
  cbn [dict_lookup]. destruct (String.eqb_spec k' k) as [->|Hne].
  - apply dict_lookup_set_eq.
  - apply dict_lookup_set_ne, Hne.
Qed.

Lemma fold_dict_set_Forall (P : string * V → Prop) (es : list (string * V)) d :
  Forall P es → Forall P d →
  Forall P (fold_left (λ d e, dict_set e.1 e.2 d) es d).
Proof.
  intros Hes. revert d. induction Hes as [|[k v] es He _ IH]; intros d Hd;
    [exact Hd|].
  cbn [fold_left fst snd]. apply IH, dict_set_Forall; assumption.
Qed.

Lemma fold_dict_set_NoDup (es : list (string * V)) d :
  NoDup d.*1 → NoDup (fold_left (λ d e, dict_set e.1 e.2 d) es d).*1.
Proof.
  revert d. induction es as [|[k v] es IH]; intros d Hd; [exact Hd|].
  cbn [fold_left fst snd]. apply IH, dict_set_NoDup, Hd.
Qed.

End DictSet.

Lemma kmer_row_refused_dec (float : string → option pyfloat) (parts : list string) :
  kmer_row_refused float parts ∨ ¬ kmer_row_refused float parts.
Proof.
  unfold kmer_row_refused.
  destruct parts as [|p0 [|p1 [|p2 [|p3 [|p4 [|p5 [|p6 [|p7 [|p8 [|p9 more]]]]]]]]]];
    cbn; try (right; intros H; exact H).
  destruct (float p6); [right; discriminate|left; reflexivity].
Qed.

Lemma kmer_rows_refused_dec (float : string → option pyfloat)
    (rows : list (list string)) :
  Exists (kmer_row_refused float) rows ∨ ¬ Exists (kmer_row_refused float) rows.
Proof.
  induction rows as [|parts rows [IH|IH]].
  - right. intros H. apply Exists_nil in H. exact H.
  - left. apply Exists_cons. right. exact IH.
  - destruct (kmer_row_refused_dec float parts) as [H|H].
    + left. apply Exists_cons. left. exact H.
    + right. intros H'. apply Exists_cons in H' as [H'|H']; auto.
Qed.

(** One turn of the loop: [ValueError] on a refused row, otherwise the
    assignment of the row's entry, if it has one. *)
Lemma parse_kmer_row_spec (float : string → option pyfloat)
    (d : list (string * HomologyHit)) (parts : list string) :
  (kmer_row_refused float parts → parse_kmer_row float d parts = None)
  ∧ (¬ kmer_row_refused float parts →
     parse_kmer_row float d parts
     = Some match kmer_entry float parts with
            | Some e => dict_set e.1 e.2 d
            | None => d
            end).
Proof.
  unfold kmer_row_refused, parse_kmer_row, kmer_entry.
  destruct parts as [|p0 [|p1 [|p2 [|p3 [|p4 [|p5 [|p6 [|p7 [|p8 [|p9 more]]]]]]]]]];
    try (split; [intros H; destruct H|reflexivity]).
  destruct (float p6) as [q|].
  - split; [discriminate|]. intros _. cbn [mbind option_bind].
    destruct (float_le (Finite 50) q); reflexivity.
  - split; [reflexivity|]. intros H. destruct (H eq_refl).
Qed.

Lemma parse_kmer_from_spec (float : string → option pyfloat) (rows : list (list string))
    (d : list (string * HomologyHit)) :
  (Exists (kmer_row_refused float) rows → parse_kmer_from float d rows = None)
  ∧ (¬ Exists (kmer_row_refused float) rows →
     parse_kmer_from float d rows
     = Some (fold_left (λ d e, dict_set e.1 e.2 d)
                       (omap (kmer_entry float) rows) d)).
Proof.
  revert d. induction rows as [|parts rows IH]; intros d.
  - split; [intros H; apply Exists_nil in H; destruct H|reflexivity].
  - cbn [parse_kmer_from].
    change (omap (kmer_entry float) (parts :: rows))
      with (match kmer_entry float parts with
            | Some e => e :: omap (kmer_entry float) rows
            | None => omap (kmer_entry float) rows
            end).
    destruct (parse_kmer_row_spec float d parts) as [Hbad Hgood].
    destruct (kmer_row_refused_dec float parts) as [Hr|Hr].
    + rewrite (Hbad Hr). split; [reflexivity|].
      intros H. destruct H. apply Exists_cons. left. exact Hr.
    + rewrite (Hgood Hr). cbn [mbind option_bind].
      destruct (IH (match kmer_entry float parts with
                    | Some e => dict_set e.1 e.2 d
                    | None => d
                    end)) as [IHbad IHgood].
      split.
      * intros H. apply Exists_cons in H as [H|H]; [destruct (Hr H)|].
        exact (IHbad H).
      * intros H. rewrite IHgood.
        -- destruct (kmer_entry float parts); reflexivity.
        -- intros H'. apply H, Exists_cons. right. exact H'.
Qed.

(** X11. The loop over the k-mer table ends with [ValueError] exactly when
    some row of ten fields or more has a template coverage that [float]
    refuses, whether or not the row would have been kept; the run is then
    aborted before any typing. *)
Theorem kmer_parsing_aborts (float : string → option pyfloat)
    (rows : list (list string)) :
  (parse_kmer_rows float rows = None ↔ Exists (kmer_row_refused float) rows)
  ∧ (∀ (set_iter : gset string → list string)
       (sorted_nan : list pyfloat → list nat) (db_rows : list (list string)),
       Exists (kmer_row_refused float) rows →
       main_tables set_iter sorted_nan float db_rows rows = Aborted ValueError).
Proof.
  destruct (parse_kmer_from_spec float rows []) as [Hbad Hgood].
  split; [split|].
  - intros Hnone.
    destruct (kmer_rows_refused_dec float rows) as [H|H]; [exact H|].
    unfold parse_kmer_rows in Hnone. rewrite (Hgood H) in Hnone.
    discriminate Hnone.
  - exact Hbad.
  - intros set_iter sorted_nan db_rows H. unfold main_tables, parse_kmer_rows.
    rewrite (Hbad H). reflexivity.
Qed.

Lemma kmer_parsing_aborts_witness :
  main_tables elements in_place float_decimal rows_IV_2B
    [sample_kmer_row "SCCmec_type_IV(2B)" "1200" "85.0";
     sample_kmer_row "SCCmec_type_I(1B)" "1500" "n/a"]
  = Aborted ValueError.
Proof.
  apply (proj2 (kmer_parsing_aborts float_decimal
                  [sample_kmer_row "SCCmec_type_IV(2B)" "1200" "85.0";
                   sample_kmer_row "SCCmec_type_I(1B)" "1500" "n/a"])).
  apply Exists_cons. right. apply Exists_cons. left. reflexivity.
Defined.

Lemma kmer_entry_coverage (float : string → option pyfloat) (parts : list string)
    (e : string * HomologyHit) :
  kmer_entry float parts = Some e →
  ∃ v, float (template_coverage e.2) = Some v ∧ float_le (Finite 50) v = true.
Proof.
  unfold kmer_entry.
  destruct parts as [|p0 [|p1 [|p2 [|p3 [|p4 [|p5 [|p6 [|p7 [|p8 [|p9 more]]]]]]]]]];
    try discriminate.
  destruct (float p6) as [q|] eqn:Hq; [|discriminate].
  destruct (float_le (Finite 50) q) eqn:Hle; [|discriminate].
  intros [= <-]. exists q. split; [exact Hq|exact Hle].
Qed.

(** X12. When the loop over the k-mer table completes, the names it keeps
    are those of the rows with ten fields or more and coverage of 50 or
    more, once each and in the order of their first such row; the record
    kept for a name is that of its last such row; every record kept has a
    coverage of 50 or more. *)
Theorem kmer_results_content (float : string → option pyfloat)
    (rows : list (list string)) (kmer_results : list (string * HomologyHit)) :
  parse_kmer_rows float rows = Some kmer_results →
  kmer_results.*1 = first_occurrences [] (omap (kmer_entry float) rows).*1
  ∧ NoDup kmer_results.*1
  ∧ (∀ name, dict_lookup name kmer_results
             = dict_lookup name (reverse (omap (kmer_entry float) rows)))
  ∧ Forall (λ e, ∃ v, float (template_coverage e.2) = Some v
                       ∧ float_le (Finite 50) v = true)
           kmer_results.
Proof.
  intros Hparse. unfold parse_kmer_rows in Hparse.
  destruct (parse_kmer_from_spec float rows []) as [Hbad Hgood].
  assert (Hd : kmer_results
               = fold_left (λ d e, dict_set e.1 e.2 d)
                           (omap (kmer_entry float) rows) []).
  { assert (Hno : ¬ Exists (kmer_row_refused float) rows)
      by (intros H; rewrite (Hbad H) in Hparse; discriminate Hparse).
    rewrite (Hgood Hno) in Hparse. injection Hparse as <-. reflexivity. }
  subst kmer_results. split; [|split; [|split]].
  - apply (fold_dict_set_keys (omap (kmer_entry float) rows) []).
  - apply fold_dict_set_NoDup. constructor.
  - intros name. rewrite fold_dict_set_lookup.
    destruct (dict_lookup name (reverse (omap (kmer_entry float) rows)));
      reflexivity.
  - apply fold_dict_set_Forall; [|constructor].
    apply Forall_forall. intros e He.
    apply list_elem_of_omap in He as (parts & _ & Hparts).
    exact (kmer_entry_coverage float parts e Hparts).
Qed.

Lemma kmer_results_content_witness :
  parse_kmer_rows float_decimal kmer_rows_with_duplicate
  = Some [ ("SCCmec_type_II(2A)|var1", sample_hit "950" "55.5");
           ("SCCmec_type_IV(2B)", sample_hit "1200" "60.0") ]
  ∧ NoDup [ "SCCmec_type_II(2A)|var1"; "SCCmec_type_IV(2B)" ].
Proof.
  split; [vm_compute; reflexivity|].
  apply (kmer_results_content float_decimal kmer_rows_with_duplicate
           [ ("SCCmec_type_II(2A)|var1", sample_hit "950" "55.5");
             ("SCCmec_type_IV(2B)", sample_hit "1200" "60.0") ]).
  vm_compute. reflexivity.
Defined.

(** ** How a run can end *)

Lemma rank_hits_none (sorted_nan : list pyfloat → list nat)
    (float : string → option pyfloat)
    (kmer_results : list (string * HomologyHit)) :
  rank_hits sorted_nan float kmer_results = None →
  Exists (λ h, float (Score h.2) = None) kmer_results.
Proof.
  unfold rank_hits. destruct kmer_results as [|h hs]; [discriminate|].
  unfold sorted_reverse, decorate.
  destruct (mapM (λ x : string * HomologyHit, k ← float (Score x.2); Some (k, x))
                 (h :: hs)) as [d|] eqn:Hd; [discriminate|].
  intros _. apply mapM_None in Hd.
  eapply Exists_impl; [exact Hd|].
  intros x Hx. cbn in Hx. destruct (float (Score x.2)); [discriminate|reflexivity].
Qed.

(** The subtyping block raises only [IndexError], before it writes, and
    only on one subtyping gene without '-'. *)
Lemma write_subtyping_raises (set_iter : gset string → list string)
    (ps ks : string) (genes : gset string) (db_hit w : string) (e : exn) :
  valid_set_iter set_iter →
  write_subtyping set_iter ps ks genes db_hit = (w, inl e) →
  e = IndexError ∧ w = "" ∧ ps = "Yes" ∧ ks ≠ ""
  ∧ ∃ g, genes = {[g]} ∧ Py.contains "-" g = false.
Proof.
  intros Hvalid. unfold write_subtyping.
  destruct (String.eqb_spec ps "Yes") as [->|_]; [|discriminate].
  destruct ks as [|c ks]; [discriminate|]. cbn [Py.truthy andb].
  destruct (1 <? size genes)%nat; [discriminate|].
  destruct (size genes =? 1)%nat eqn:Hsize; [|discriminate].
  apply Nat.eqb_eq, size_1_elem_of in Hsize as [g Hg].
  apply leibniz_equiv in Hg. subst genes.
  rewrite (valid_set_iter_singleton set_iter g Hvalid).
  change (index [g] 0) with (out_ret g).
  cbv beta iota zeta delta [out_bind out_ret].
  destruct (Py.contains "-" g) eqn:Hdash.
  - destruct (split_contains "-" g Hdash) as [suffix Hsuffix].
    unfold index. rewrite Hsuffix.
    cbv beta iota zeta delta [out_ret].
    match goal with |- context [negb ?b] => destruct (negb b) end;
      run_writes; intros H; discriminate H.
  - rewrite (split_no_sep "-" g Hdash).
    change (index [] 0) with (@raise string IndexError). unfold raise.
    intros [= <- <-]. repeat split; try discriminate. eauto.
Qed.

(** X13. Under a valid iteration order a run ends early in two ways only:
    aborted by [ValueError], when [float] refuses the score of a hit, or
    stopped by [IndexError] right after the resistance lines, when the
    single type calls for subtyping, the best hit has a subtype and the
    only subtyping gene has no '-'. Every other run finishes. *)
Theorem run_ends_early_only_on
    (set_iter : gset string → list string)
    (sorted_nan : list pyfloat → list nat) (float : string → option pyfloat)
    (ev : Evidence) (kmer_results : list (string * HomologyHit)) :
  valid_set_iter set_iter →
  match main_core set_iter sorted_nan float ev kmer_results with
  | Aborted e =>
      e = ValueError ∧ Exists (λ h, float (Score h.2) = None) kmer_results
  | Partial text e =>
      e = IndexError ∧ text = resistance_lines (mrsa_gene ev)
      ∧ ∃ kmer_hits db_hit g,
          rank_hits sorted_nan float kmer_results = Some kmer_hits
          ∧ perform_sccmec_typing (all_classes_of ev) = [db_hit]
          ∧ db_hit ∈ ambiguous_subtype_set
          ∧ kmer_subtype_of kmer_hits ≠ ""
          ∧ subtyping_genes ev = {[g]}
          ∧ Py.contains "-" g = false
  | Finished _ html =>
      ∃ kmer_hits, rank_hits sorted_nan float kmer_results = Some kmer_hits
                   ∧ html = write_html kmer_hits
  end.
Proof.
  intros Hvalid.
  destruct (rank_hits sorted_nan float kmer_results) as [kmer_hits|] eqn:Hrank.
  2: { unfold main_core. rewrite Hrank. split; [reflexivity|].
       exact (rank_hits_none _ _ _ Hrank). }
  destruct (perform_sccmec_typing (all_classes_of ev)) as [|db_hit [|t types]]
    eqn:Htypes.
  - rewrite (main_core_none _ _ _ _ _ _ Hrank Htypes). eauto.
  - rewrite (main_core_single _ _ _ _ _ _ _ Hrank Htypes).
    destruct (write_subtyping set_iter (perform_subtyping_of [db_hit])
                (kmer_subtype_of kmer_hits) (subtyping_genes ev) db_hit)
      as [w [e|u]] eqn:Hsub; [|eauto].
    destruct (write_subtyping_raises _ _ _ _ _ _ _ Hvalid Hsub)
      as (-> & -> & Hps & Hks & g & Hg & Hdash).
    split; [reflexivity|]. split; [apply append_nil_r|].
    exists kmer_hits, db_hit, g.
    apply perform_subtyping_yes in Hps as (t & [= <-] & Ht). auto 10.
  - rewrite (main_core_several _ _ _ _ _ _ Hrank)
      by (rewrite Htypes; cbn [length]; lia).
    eauto.
Qed.

Lemma run_ends_early_only_on_witness :
  ∃ kmer_hits,
    rank_hits in_place float_decimal hits_with_tie = Some kmer_hits
    ∧ write_html
        [ ("SCCmec_type_IV(2B)", sample_hit "12" "60.0");
          ("SCCmec_type_II(2A)|var1", sample_hit "10.2" "75.5");
          ("SCCmec_type_I(1B)", sample_hit "10.2" "80.0");
          ("SCCmec_type_III(3A)", sample_hit "3.5" "51.0") ]
      = write_html kmer_hits.
Proof.
  pose proof (run_ends_early_only_on elements in_place float_decimal
                (parse_rows rows_IV_2B) hits_with_tie valid_elements) as H.
  vm_compute main_core in H. exact H.
Defined.

(** ** What the result file takes from the homology hits *)

Lemma rank_hits_one (sorted_nan : list pyfloat → list nat)
    (float : string → option pyfloat) (h : string * HomologyHit) :
  is_Some (float (Score h.2)) → rank_hits sorted_nan float [h] = Some [h].
Proof.
  intros [k Hk]. unfold rank_hits, sorted_reverse, decorate.
  cbn [mapM]. rewrite Hk. cbn. destruct (is_nan k); reflexivity.
Qed.

(** The report reads the ranked hits through their head only. *)
Lemma write_report_head (set_iter : gset string → list string)
    (mrsa : string) (sccmec_types : list string) (ps : string)
    (genes : gset string) (h : string * HomologyHit)
    (rest : list (string * HomologyHit)) (all_classes total_genes : gset string) :
  write_report set_iter mrsa sccmec_types ps (kmer_subtype_of (h :: rest)) genes
    (best_kmer_hit_of (h :: rest)) (h :: rest) all_classes total_genes
  = write_report set_iter mrsa sccmec_types ps (kmer_subtype_of [h]) genes
      (best_kmer_hit_of [h]) [h] all_classes total_genes.
Proof.
  destruct h as [name data].
  change (kmer_subtype_of ((name, data) :: rest))
    with (kmer_subtype_of [(name, data)]).
  change (best_kmer_hit_of ((name, data) :: rest))
    with (best_kmer_hit_of [(name, data)]).
  unfold write_report. destruct sccmec_types as [|db_hit [|t types]]; reflexivity.
Qed.

(** X14. The result file takes nothing from the homology hits but the
    top-ranked one: a run on all the hits ends as the run on the best hit
    alone does, with the same text in the result file; only the homology
    table differs. *)
Theorem report_uses_best_hit_only
    (set_iter : gset string → list string)
    (sorted_nan : list pyfloat → list nat) (float : string → option pyfloat)
    (ev : Evidence) (kmer_results : list (string * HomologyHit))
    (h : string * HomologyHit) (rest : list (string * HomologyHit)) :
  rank_hits sorted_nan float kmer_results = Some (h :: rest) →
  main_core set_iter sorted_nan float ev kmer_results
  = match main_core set_iter sorted_nan float ev [h] with
    | Finished text _ => Finished text (write_html (h :: rest))
    | r => r
    end.
Proof.
  intros Hrank.
  assert (Hone : rank_hits sorted_nan float [h] = Some [h]).
  { apply rank_hits_one.
    exact (Forall_inv (rank_hits_scores _ _ _ _ Hrank)). }
  unfold main_core. rewrite Hrank, Hone.
  cbv beta iota zeta. rewrite write_report_head.
  destruct (write_report _ _ _ _ _ _ _ _ _ _) as [text [e|u]]; reflexivity.
Qed.

Lemma report_uses_best_hit_only_witness :
  main_core elements in_place float_decimal (parse_rows rows_IV_2B) hits_with_tie
  = match main_core elements in_place float_decimal (parse_rows rows_IV_2B)
            [("SCCmec_type_IV(2B)", sample_hit "12" "60.0")] with
    | Finished text _ =>
        Finished text
          (write_html
             [ ("SCCmec_type_IV(2B)", sample_hit "12" "60.0");
               ("SCCmec_type_II(2A)|var1", sample_hit "10.2" "75.5");
               ("SCCmec_type_I(1B)", sample_hit "10.2" "80.0");
               ("SCCmec_type_III(3A)", sample_hit "3.5" "51.0") ])
    | r => r
    end.
Proof.
  apply (report_uses_best_hit_only elements in_place float_decimal
           (parse_rows rows_IV_2B) hits_with_tie).
  vm_compute. reflexivity.
Defined.

(** ** Reference genes among the detected ones *)

Section Detected.

Variable ev : Evidence.
Hypothesis Hpart : gene_partition ev.

(** A detected token is in the set its prefix sends it to. *)
Lemma total_ccrAB (g : string) :
  g ∈ total_genes_of ev → Py.startswith_any g ["ccrA"; "ccrB"] = true →
  g ∈ ccrAB_genes ev.
Proof.
  destruct Hpart as (HAB & HC & Hmec & _).
  unfold total_genes_of. rewrite !elem_of_union. intros [[H|H]|H] Hg; [exact H|..];
    apply startswith_any_2 in Hg.
  - apply HC in H as [H _]. unfold Py.startswith in *.
    destruct Hg as [Hg|Hg]; prefix_clash Hg H.
  - apply Hmec in H as [H _]. apply startswith_any_3 in H.
    unfold Py.startswith in *.
    destruct Hg as [Hg|Hg]; destruct H as [H|[H|H]]; prefix_clash Hg H.
Qed.

Lemma total_ccrC (g : string) :
  g ∈ total_genes_of ev → Py.startswith g "ccrC" = true → g ∈ ccrC_genes ev.
Proof.
  destruct Hpart as (HAB & HC & Hmec & _).
  unfold total_genes_of. rewrite !elem_of_union. intros [[H|H]|H] Hg; [|exact H|].
  - apply HAB in H as [H _]. apply startswith_any_2 in H.
    unfold Py.startswith in *. destruct H as [H|H]; prefix_clash Hg H.
  - apply Hmec in H as [H _]. apply startswith_any_3 in H.
    unfold Py.startswith in *. destruct H as [H|[H|H]]; prefix_clash Hg H.
Qed.

Lemma total_mec (g : string) :
  g ∈ total_genes_of ev → Py.startswith_any g ["mec"; "IS"; "dme"] = true →
  g ∈ mec_genes ev.
Proof.
  destruct Hpart as (HAB & HC & Hmec & _).
  unfold total_genes_of. rewrite !elem_of_union. intros [[H|H]|H] Hg; [..|exact H];
    apply startswith_any_3 in Hg.
  - apply HAB in H as [H _]. apply startswith_any_2 in H.
    unfold Py.startswith in *.
    destruct Hg as [Hg|[Hg|Hg]]; destruct H as [H|H]; prefix_clash Hg H.
  - apply HC in H as [H _]. unfold Py.startswith in *.
    destruct Hg as [Hg|[Hg|Hg]]; prefix_clash Hg H.
Qed.

(** A class whose two genes are detected is in the class set. *)
Lemma ccrAB_class (c a b : string) :
  (∀ ccrAB ccrC, {[a; b]} ⊆ ccrAB →
     c ∈ perform_ccr_gene_complex_typing ccrAB ccrC) →
  Py.startswith_any a ["ccrA"; "ccrB"] = true →
  Py.startswith_any b ["ccrA"; "ccrB"] = true →
  a ∈ total_genes_of ev → b ∈ total_genes_of ev → c ∈ all_classes_of ev.
Proof.
  intros Hrule Ha Hb Hta Htb. apply elem_of_all_classes. left.
  apply Hrule, subseteq_2. split; apply total_ccrAB; assumption.
Qed.

Lemma mec_class_2 (c a b : string) :
  (∀ mec, {[a; b]} ⊆ mec → c ∈ perform_mec_gene_complex_typing mec) →
  Py.startswith_any a ["mec"; "IS"; "dme"] = true →
  Py.startswith_any b ["mec"; "IS"; "dme"] = true →
  a ∈ total_genes_of ev → b ∈ total_genes_of ev → c ∈ all_classes_of ev.
Proof.
  intros Hrule Ha Hb Hta Htb. apply elem_of_all_classes. right.
  apply Hrule, subseteq_2. split; apply total_mec; assumption.
Qed.

Lemma mec_class_3 (c a b d : string) :
  (∀ mec, {[a; b; d]} ⊆ mec → c ∈ perform_mec_gene_complex_typing mec) →
  Py.startswith_any a ["mec"; "IS"; "dme"] = true →
  Py.startswith_any b ["mec"; "IS"; "dme"] = true →
  Py.startswith_any d ["mec"; "IS"; "dme"] = true →
  a ∈ total_genes_of ev → b ∈ total_genes_of ev → d ∈ total_genes_of ev →
  c ∈ all_classes_of ev.
Proof.
  intros Hrule Ha Hb Hd Hta Htb Htd. apply elem_of_all_classes. right.
  apply Hrule, subseteq_3. repeat split; apply total_mec; assumption.
Qed.

End Detected.

(** Select the rule of a classifier whose label and genes are given. *)
Ltac pick_class H :=
  first [apply elem_of_ccr_typing|apply elem_of_mec_typing];
  repeat (first [ solve [left; split; [reflexivity | exact_syn H]] | right ]);
  try solve [split; [reflexivity | exact_syn H]].

Ltac ccrAB_detected c a b :=
  intros Hpart Ha Hb;
  apply (ccrAB_class _ Hpart c a b);
  [intros ccrAB ccrC H; pick_class H|reflexivity|reflexivity|exact Ha|exact Hb].

Lemma class_1_detected (ev : Evidence) :
  gene_partition ev → "ccrA1" ∈ total_genes_of ev → "ccrB1" ∈ total_genes_of ev →
  "ccr class 1" ∈ all_classes_of ev.
Proof. ccrAB_detected "ccr class 1" "ccrA1" "ccrB1". Qed.

Lemma class_2_detected (ev : Evidence) :
  gene_partition ev → "ccrA2" ∈ total_genes_of ev → "ccrB2" ∈ total_genes_of ev →
  "ccr class 2" ∈ all_classes_of ev.
Proof. ccrAB_detected "ccr class 2" "ccrA2" "ccrB2". Qed.

Lemma class_3_detected (ev : Evidence) :
  gene_partition ev → "ccrA3" ∈ total_genes_of ev → "ccrB3" ∈ total_genes_of ev →
  "ccr class 3" ∈ all_classes_of ev.
Proof. ccrAB_detected "ccr class 3" "ccrA3" "ccrB3". Qed.

Lemma class_4_detected (ev : Evidence) :
  gene_partition ev → "ccrA4" ∈ total_genes_of ev → "ccrB4" ∈ total_genes_of ev →
  "ccr class 4" ∈ all_classes_of ev.
Proof. ccrAB_detected "ccr class 4" "ccrA4" "ccrB4". Qed.

Lemma class_7_detected (ev : Evidence) :
  gene_partition ev → "ccrA1" ∈ total_genes_of ev → "ccrB6" ∈ total_genes_of ev →
  "ccr class 7" ∈ all_classes_of ev.
Proof. ccrAB_detected "ccr class 7" "ccrA1" "ccrB6". Qed.

Lemma class_8_detected (ev : Evidence) :
  gene_partition ev → "ccrA1" ∈ total_genes_of ev → "ccrB3" ∈ total_genes_of ev →
  "ccr class 8" ∈ all_classes_of ev.
Proof. ccrAB_detected "ccr class 8" "ccrA1" "ccrB3". Qed.

Lemma class_9_detected (ev : Evidence) :
  gene_partition ev → "ccrC21" ∈ total_genes_of ev →
  "ccr class 9" ∈ all_classes_of ev.
Proof.
  intros Hpart H. apply elem_of_all_classes. left. apply elem_of_ccr_typing.
  do 8 right. split; [reflexivity|]. apply total_ccrC; [exact Hpart|exact H|reflexivity].
Qed.

Lemma class_5_detected (ev : Evidence) :
  gene_partition ev → "ccrC11" ∈ total_genes_of ev → "ccrC12" ∉ ccrC_genes ev →
  "ccr class 5" ∈ all_classes_of ev.
Proof.
  intros Hpart H11 H12. apply elem_of_all_classes. left. apply elem_of_ccr_typing.
  do 2 right; left; right. split; [reflexivity|]. split.
  - intros H. apply subseteq_2 in H as [_ H]. exact (H12 H).
  - apply total_ccrC; [exact Hpart|exact H11|reflexivity].
Qed.

Lemma class_55_detected (ev : Evidence) :
  gene_partition ev → "ccrC11" ∈ total_genes_of ev → "ccrC12" ∈ total_genes_of ev →
  "ccr class 5&5" ∈ all_classes_of ev.
Proof.
  intros Hpart H11 H12. apply elem_of_all_classes. left. apply elem_of_ccr_typing.
  do 2 right; left; left. split; [reflexivity|].
  apply subseteq_2. split; (apply total_ccrC; [exact Hpart|assumption|reflexivity]).
Qed.

Lemma class_A_detected (ev : Evidence) :
  gene_partition ev → "mecA" ∈ total_genes_of ev → "mecR1" ∈ total_genes_of ev →
  "mecI" ∈ total_genes_of ev → "mec class A" ∈ all_classes_of ev.
Proof.
  intros Hpart Ha Hb Hd. apply (mec_class_3 _ Hpart _ "mecA" "mecR1" "mecI");
    [intros mec H; pick_class H|reflexivity..|exact Ha|exact Hb|exact Hd].
Qed.

Lemma class_B_detected (ev : Evidence) :
  gene_partition ev → "mecA" ∈ total_genes_of ev → "dmecR1" ∈ total_genes_of ev →
  "IS1272" ∈ total_genes_of ev → "mec class B" ∈ all_classes_of ev.
Proof.
  intros Hpart Ha Hb Hd. apply (mec_class_3 _ Hpart _ "mecA" "dmecR1" "IS1272");
    [intros mec H; pick_class H|reflexivity..|exact Ha|exact Hb|exact Hd].
Qed.

Lemma class_E_detected (ev : Evidence) :
  gene_partition ev → "mecC" ∈ total_genes_of ev → "mecR1" ∈ total_genes_of ev →
  "mecI" ∈ total_genes_of ev → "mec class E" ∈ all_classes_of ev.
Proof.
  intros Hpart Ha Hb Hd. apply (mec_class_3 _ Hpart _ "mecC" "mecR1" "mecI");
    [intros mec H; pick_class H|reflexivity..|exact Ha|exact Hb|exact Hd].
Qed.

Lemma class_C1_detected (ev : Evidence) :
  gene_partition ev → "mecA" ∈ total_genes_of ev →
  "mec-class-C1" ∈ total_genes_of ev → "mec class C1" ∈ all_classes_of ev.
Proof.
  intros Hpart Ha Hb. apply (mec_class_2 _ Hpart _ "mecA" "mec-class-C1");
    [intros mec H; pick_class H|reflexivity..|exact Ha|exact Hb].
Qed.

Lemma class_C2_detected (ev : Evidence) :
  gene_partition ev → "mecA" ∈ total_genes_of ev →
  "mec-class-C2" ∈ total_genes_of ev → "mec class C2" ∈ all_classes_of ev.
Proof.
  intros Hpart Ha Hb. apply (mec_class_2 _ Hpart _ "mecA" "mec-class-C2");
    [intros mec H; pick_class H|reflexivity..|exact Ha|exact Hb].
Qed.

(** Prove that a class is in the class set from the detected genes. *)
Ltac class_detected Hpart Hall :=
  first [apply class_1_detected|apply class_2_detected|apply class_3_detected
        |apply class_4_detected|apply class_7_detected|apply class_8_detected
        |apply class_9_detected|apply class_55_detected
        |apply class_A_detected|apply class_B_detected|apply class_C1_detected
        |apply class_C2_detected|apply class_E_detected];
  [exact Hpart|apply Hall; by_eval..].

(** Prove the rule of a type whose two classes follow from the genes. *)
Ltac type_detected Hpart Hall :=
  apply elem_of_sccmec_typing;
  repeat (first
    [ solve [left; split;
             [reflexivity|apply subseteq_2; split; class_detected Hpart Hall]]
    | right ]);
  try solve [split;
             [reflexivity|apply subseteq_2; split; class_detected Hpart Hall]].

Lemma reference_genes_in_partition (ev : Evidence) (t : string)
    (defs : gset string) :
  gene_partition ev →
  SCCMEC_DEFINITIONS !! t = Some defs →
  defs ⊆ total_genes_of ev →
  t ∈ perform_sccmec_typing (all_classes_of ev)
  ∨ (t = "SCCmec_type_IV(2B)"
     ∧ "SCCmec_type_IV(2B&5)" ∈ perform_sccmec_typing (all_classes_of ev))
  ∨ ((t = "SCCmec_type_IV(2B&5)" ∨ t = "SCCmec_type_V(5C2)"
      ∨ t = "SCCmec_type_VII(5C1)")
     ∧ "ccrC12" ∈ ccrC_genes ev)
  ∨ t = "SCCmec_type_XIII(9A)".
Proof.
  intros Hpart Hin Hsub.
  pose proof (proj1 (elem_of_subseteq _ _) Hsub) as Hall. clear Hsub.
  unfold SCCMEC_DEFINITIONS in Hin. apply elem_of_list_to_map_2 in Hin.
  repeat (apply elem_of_cons in Hin as [Hin|Hin];
          [injection Hin as -> ->|]);
    [..|apply elem_of_nil in Hin; destruct Hin].
  15: { do 3 right. reflexivity. }
  9: { destruct (decide ("ccrC12" ∈ ccrC_genes ev)) as [H12|H12];
         [do 2 right; left; split; [auto|exact H12]|].
       left. apply elem_of_sccmec_typing. do 7 right; left.
       split; [reflexivity|]. apply subseteq_2. split.
       - apply class_5_detected; [exact Hpart|apply Hall; by_eval|exact H12].
       - class_detected Hpart Hall. }
  6: { destruct (decide ("ccrC12" ∈ ccrC_genes ev)) as [H12|H12];
         [do 2 right; left; split; [auto|exact H12]|].
       left. apply elem_of_sccmec_typing. do 4 right; left.
       split; [reflexivity|]. apply subseteq_2. split.
       - apply class_5_detected; [exact Hpart|apply Hall; by_eval|exact H12].
       - class_detected Hpart Hall. }
  5: { destruct (decide ("ccrC12" ∈ ccrC_genes ev)) as [H12|H12];
         [do 2 right; left; split; [auto|exact H12]|].
       left. apply elem_of_sccmec_typing. do 3 right; left; left.
       split; [reflexivity|]. apply subseteq_3. split; [|split].
       - class_detected Hpart Hall.
       - apply class_5_detected; [exact Hpart|apply Hall; by_eval|exact H12].
       - class_detected Hpart Hall. }
  4: { assert (H2 : "ccr class 2" ∈ all_classes_of ev)
         by class_detected Hpart Hall.
       assert (HB : "mec class B" ∈ all_classes_of ev)
         by class_detected Hpart Hall.
       destruct (decide ({["ccr class 2"; "ccr class 5"; "mec class B"]}
                         ⊆ all_classes_of ev)) as [H25|H25].
       - right; left. split; [reflexivity|]. apply elem_of_sccmec_typing.
         do 3 right; left; left. split; [reflexivity|exact H25].
       - left. apply elem_of_sccmec_typing. do 3 right; left; right.
         split; [reflexivity|]. split; [exact H25|].
         apply subseteq_2. split; assumption. }
  all: left; type_detected Hpart Hall.
Qed.

(** X15. When the genes of the data rows include every reference gene of
    a type of the table, the type is found, but for these cases:
    SCCmec_type_IV(2B) gives way to SCCmec_type_IV(2B&5) when that is
    found; the three types that need 'ccr class 5' are not found when
    ccrC12 is detected too; SCCmec_type_XIII(9A) is not found on its
    reference genes. *)
Theorem reference_genes_detected (rows : list (list string)) (t : string)
    (defs : gset string) :
  SCCMEC_DEFINITIONS !! t = Some defs →
  defs ⊆ total_genes_of (parse_rows rows) →
  t ∈ perform_sccmec_typing (all_classes_of (parse_rows rows))
  ∨ (t = "SCCmec_type_IV(2B)"
     ∧ "SCCmec_type_IV(2B&5)"
       ∈ perform_sccmec_typing (all_classes_of (parse_rows rows)))
  ∨ ((t = "SCCmec_type_IV(2B&5)" ∨ t = "SCCmec_type_V(5C2)"
      ∨ t = "SCCmec_type_VII(5C1)")
     ∧ "ccrC12" ∈ ccrC_genes (parse_rows rows))
  ∨ t = "SCCmec_type_XIII(9A)".
Proof.
  apply reference_genes_in_partition.
  apply fold_parse_row_partition, gene_partition_no_evidence.
Qed.

Lemma reference_genes_detected_witness :
  "SCCmec_type_IV(2B)"
    ∈ perform_sccmec_typing (all_classes_of (parse_rows rows_IV_2B))
  ∨ ("SCCmec_type_IV(2B)" = "SCCmec_type_IV(2B)"
     ∧ "SCCmec_type_IV(2B&5)"
       ∈ perform_sccmec_typing (all_classes_of (parse_rows rows_IV_2B)))
  ∨ (("SCCmec_type_IV(2B)" = "SCCmec_type_IV(2B&5)"
      ∨ "SCCmec_type_IV(2B)" = "SCCmec_type_V(5C2)"
      ∨ "SCCmec_type_IV(2B)" = "SCCmec_type_VII(5C1)")
     ∧ "ccrC12" ∈ ccrC_genes (parse_rows rows_IV_2B))
  ∨ "SCCmec_type_IV(2B)" = "SCCmec_type_XIII(9A)".
Proof.
  apply (reference_genes_detected rows_IV_2B "SCCmec_type_IV(2B)"
           {["ccrA2"; "ccrB2"; "mecA"; "dmecR1"; "IS1272"]}); by_eval.
Defined.
